(* Verification development for bitaxe-discord-status-bot:
   src/device_status.py (fetch_status, get_all_device_statuses, get_value,
   unify_status) and, from src/status_overview.py, the best-difficulty store
   (load_best_diff, check_and_update_best_diff, save_best_diff,
   format_best_diff, get_best_diff_suffix), the threshold lights
   (get_temp_emoji, get_fan_emoji, get_volt_emoji), chunk_embed_field,
   build_summary and parts of format_status_embeds (format_time_ago, the
   best-difficulty history field and the next-update countdown). *)

From Stdlib Require Import String Ascii ZArith List Bool Lia.
From Stdlib Require Import QArith Lqa.
From stdpp Require Import gmap strings.

Import ListNotations.
Open Scope string_scope.
Open Scope Z_scope.

(* stdpp makes [String.append] opaque to [simpl]; let it compute here. *)
#[local] Arguments String.append : simpl nomatch.

(* ===================================================================== *)
(** * Python string helpers (ASCII model of [str])                         *)
(* ===================================================================== *)

Module PyStr.

Definition code (c : ascii) : Z := Z.of_nat (nat_of_ascii c).

Definition is_digit (c : ascii) : bool := (48 <=? code c) && (code c <=? 57).

Definition digit_val (c : ascii) : Z := code c - 48.

(** [str.isspace] on the ASCII range: \t \n \x0b \x0c \r, \x1c-\x1f, space. *)
Definition is_space (c : ascii) : bool :=
  ((9 <=? code c) && (code c <=? 13)) || ((28 <=? code c) && (code c <=? 32)).

Definition lower_char (c : ascii) : ascii :=
  if (65 <=? code c) && (code c <=? 90)
  then ascii_of_nat (Z.to_nat (code c + 32)) else c.

Definition upper_char (c : ascii) : ascii :=
  if (97 <=? code c) && (code c <=? 122)
  then ascii_of_nat (Z.to_nat (code c - 32)) else c.

Fixpoint map_str (f : ascii -> ascii) (s : string) : string :=
  match s with
  | EmptyString => EmptyString
  | String c r => String (f c) (map_str f r)
  end.

(** [s.lower()] and [s.upper()]. *)
Definition lower (s : string) : string := map_str lower_char s.
Definition upper (s : string) : string := map_str upper_char s.

(** [s.replace(c, r)] for a one-character pattern [c]. *)
Fixpoint replace_char (c : ascii) (r : string) (s : string) : string :=
  match s with
  | EmptyString => EmptyString
  | String d t => if Ascii.eqb d c then r ++ replace_char c r t
                  else String d (replace_char c r t)
  end.

(** [c in s] for a one-character [c]. *)
Fixpoint contains_char (c : ascii) (s : string) : bool :=
  match s with
  | EmptyString => false
  | String d t => Ascii.eqb d c || contains_char c t
  end.

Fixpoint lstrip (s : string) : string :=
  match s with
  | EmptyString => EmptyString
  | String c t => if is_space c then lstrip t else s
  end.

Fixpoint rstrip (s : string) : string :=
  match s with
  | EmptyString => EmptyString
  | String c t =>
      match rstrip t with
      | EmptyString => if is_space c then EmptyString else String c EmptyString
      | r => String c r
      end
  end.

(** [s.strip()]. *)
Definition strip (s : string) : string := rstrip (lstrip s).

(** [s[-1]] on a non-empty string. *)
Fixpoint last_char (s : string) : option ascii :=
  match s with
  | EmptyString => None
  | String c EmptyString => Some c
  | String _ t => last_char t
  end.

End PyStr.

(* ===================================================================== *)
(** * [float(s)] and [int(x)] as used on difficulty strings               *)
(* ===================================================================== *)

(** A Python float (IEEE 754 binary64) or the ValueError of [float(s)].
    A finite double is [PFin sg m e], of value [sg * m * 2^e] with
    [sg] = 1 or -1 and [0 <= m <= 2^53]. *)
Inductive pyfloat :=
  | PFin (sg : Z) (m : Z) (e : Z)
  | PInf (sg : Z)
  | PNan
  | PErr.                       (* float() raised ValueError *)

Module PyFloat.
Import PyStr.

Fixpoint digits_val_acc (acc : Z) (ds : list Z) : Z :=
  match ds with
  | [] => acc
  | d :: r => digits_val_acc (acc * 10 + d) r
  end.

Definition digits_val (ds : list Z) : Z := digits_val_acc 0 ds.

(** Digits after the first one of a digit part; a single underscore may
    separate two digits (PEP 515). *)
Fixpoint more_digits (s : string) : list Z * string :=
  match s with
  | EmptyString => ([], EmptyString)
  | String c r =>
      if is_digit c then
        let '(ds, r') := more_digits r in (digit_val c :: ds, r')
      else if Ascii.eqb c "_"%char then
        match r with
        | String d r2 =>
            if is_digit d then
              let '(ds, r') := more_digits r2 in (digit_val d :: ds, r')
            else ([], s)
        | EmptyString => ([], s)
        end
      else ([], s)
  end.

(** A possibly empty digit part. *)
Definition opt_digits (s : string) : list Z * string :=
  match s with
  | String c r =>
      if is_digit c then let '(ds, r') := more_digits r in (digit_val c :: ds, r')
      else ([], s)
  | EmptyString => ([], EmptyString)
  end.

Definition sign (s : string) : Z * string :=
  match s with
  | String c r =>
      if Ascii.eqb c "+"%char then (1, r)
      else if Ascii.eqb c "-"%char then (-1, r)
      else (1, s)
  | EmptyString => (1, EmptyString)
  end.

(** The exponent part and the end of input. *)
Definition expo (s : string) (ds : list Z) (nfrac : Z) : option (Z * Z) :=
  match s with
  | EmptyString => Some (digits_val ds, - nfrac)
  | String c r =>
      if Ascii.eqb c "e"%char || Ascii.eqb c "E"%char then
        let '(esg, r1) := sign r in
        let '(eds, r2) := opt_digits r1 in
        match eds, r2 with
        | _ :: _, EmptyString => Some (digits_val ds, esg * digits_val eds - nfrac)
        | _, _ => None
        end
      else None
  end.

(** [digitpart "." [digitpart] | "." digitpart | digitpart], then the
    optional exponent. *)
Definition number (s : string) : option (Z * Z) :=
  let '(ip, s1) := opt_digits s in
  match s1 with
  | String c s2 =>
      if Ascii.eqb c "."%char then
        let '(fp, s3) := opt_digits s2 in
        match ip, fp with
        | [], [] => None
        | _, _ => expo s3 (ip ++ fp) (Z.of_nat (length fp))
        end
      else match ip with [] => None | _ => expo s1 ip 0 end
  | EmptyString => match ip with [] => None | _ => expo s1 ip 0 end
  end.

(** The l with [2^l <= n / d < 2^(l+1)], for [n, d > 0]. *)
Definition floor_log2 (n d : Z) : Z :=
  if d <=? n then Z.log2 (n / d) else - Z.log2_up ((d + n - 1) / n).

(** The rational [n / d] ([n >= 0], [d > 0]) rounded to the nearest
    binary64 value, ties to even: [Some (m, e)] of value [m * 2^e], with the
    53-bit significand of a normal number or the fixed exponent -1074 of a
    subnormal one, or None when it rounds to infinity. *)
Definition round_binary64 (n d : Z) : option (Z * Z) :=
  if n =? 0 then Some (0, 0) else
  let e := Z.max (floor_log2 n d - 52) (-1074) in
  let num := if 0 <=? e then n else n * 2 ^ (- e) in
  let den := if 0 <=? e then d * 2 ^ e else d in
  let q := num / den in
  let r := num mod den in
  let m := if (den <? 2 * r) || ((2 * r =? den) && Z.odd q) then q + 1 else q in
  if (0 <=? e) && (2 ^ 1024 <=? m * 2 ^ e) then None else Some (m, e).

Definition of_rounded (sg : Z) (r : option (Z * Z)) : pyfloat :=
  match r with
  | Some (m, e) => PFin sg m e
  | None => PInf sg
  end.

(** The double nearest to the decimal [sg * m * 10^e]: CPython's [float(s)]
    is correctly rounded, and overflows to infinity without an error. *)
Definition decimal_to_float (sg m e : Z) : pyfloat :=
  of_rounded sg (if 0 <=? e then round_binary64 (m * 10 ^ e) 1
                 else round_binary64 m (10 ^ (- e))).

Definition py_float (s : string) : pyfloat :=
  let '(sg, body) := sign (strip s) in
  let b := lower body in
  if String.eqb b "inf" || String.eqb b "infinity" then PInf sg
  else if String.eqb b "nan" then PNan
  else match number body with
       | Some (m, e) => decimal_to_float sg m e
       | None => PErr
       end.

(** [x * 10^k] for a float [x] and the exact double [10^k] (1e3, 1e6, 1e9):
    the exact product rounded to the nearest double; inf and nan stay. *)
Definition mul_pow10 (x : pyfloat) (k : Z) : pyfloat :=
  match x with
  | PFin sg m e =>
      of_rounded sg (if 0 <=? e then round_binary64 (m * 2 ^ e * 10 ^ k) 1
                     else round_binary64 (m * 10 ^ k) (2 ^ (- e)))
  | _ => x
  end.

(** [int(x)] of a finite float: truncation toward zero. *)
Definition trunc (sg m e : Z) : Z :=
  sg * (if 0 <=? e then m * 2 ^ e else m / 2 ^ (- e)).

End PyFloat.

(** The outcome of [int(float(s))]. *)
Inductive int_result :=
  | IntOk (n : Z)
  | IntValueError
  | IntOverflowError.

Definition float_to_int (x : pyfloat) : int_result :=
  match x with
  | PFin sg m e => IntOk (PyFloat.trunc sg m e)
  | PInf _ => IntOverflowError           (* int(inf) *)
  | PNan => IntValueError                (* int(nan) *)
  | PErr => IntValueError                (* float() itself *)
  end.

Definition int_float (s : string) : int_result := float_to_int (PyFloat.py_float s).

(** [int(float(best_diff_str.lower().replace("g", "e9").replace("m", "e6")
    .replace("k", "e3")))] of check_and_update_best_diff. *)
Definition parse_best_diff (s : string) : int_result :=
  int_float
    (PyStr.replace_char "k" "e3"
       (PyStr.replace_char "m" "e6"
          (PyStr.replace_char "g" "e9" (PyStr.lower s)))).

(* ===================================================================== *)
(** * format_best_diff                                                    *)
(* ===================================================================== *)

Module Fmt.

Definition digit_char (d : Z) : ascii := ascii_of_nat (Z.to_nat (48 + d)).

(** Decimal digits of [n >= 0], least significant first. *)
Fixpoint digits_rev (fuel : nat) (n : Z) : list Z :=
  match fuel with
  | O => [n]
  | S f => if n <? 10 then [n] else (n mod 10) :: digits_rev f (n / 10)
  end.

(** Prepend the digits, least significant first, with a comma every three. *)
Fixpoint group3 (ds : list Z) (k : nat) (acc : string) : string :=
  match ds with
  | [] => acc
  | d :: r =>
      if Nat.eqb k 3 then group3 r 1 (String (digit_char d) (String "," acc))
      else group3 r (S k) (String (digit_char d) acc)
  end.

Definition commas_nonneg (n : Z) : string :=
  group3 (digits_rev (S (Z.to_nat (Z.log2 n))) n) 0 "".

(** [f"{n:,}"]. *)
Definition format_thousands (n : Z) : string :=
  if n <? 0 then "-" ++ commas_nonneg (- n) else commas_nonneg n.

End Fmt.

(** [f"{int(value):,}" + tag]; the exception of [float()] or [int()]
    (ValueError, OverflowError) is caught and [str(best_diff)] returned. *)
Definition format_int (best_diff : string) (value : pyfloat) (tag : string) : string :=
  match value with
  | PFin sg m e => Fmt.format_thousands (PyFloat.trunc sg m e) ++ tag
  | _ => best_diff
  end.

(** [value = float(body) * 1e<scale>], a product of doubles. *)
Definition format_scaled (best_diff body : string) (scale : Z) (tag : string)
  : string :=
  format_int best_diff (PyFloat.mul_pow10 (PyFloat.py_float body) scale) tag.

Definition format_best_diff (best_diff : string) : string :=
  let s := PyStr.strip (PyStr.upper best_diff) in
  if PyStr.contains_char "G" s then
    format_scaled best_diff (PyStr.strip (PyStr.replace_char "G" "" s)) 9 " (G)"
  else if PyStr.contains_char "M" s then
    format_scaled best_diff (PyStr.strip (PyStr.replace_char "M" "" s)) 6 " (M)"
  else if PyStr.contains_char "K" s then
    format_scaled best_diff (PyStr.strip (PyStr.replace_char "K" "" s)) 3 " (K)"
  else format_int best_diff (PyFloat.py_float s) "".

(* ===================================================================== *)
(** * The best-difficulty store                                           *)
(* ===================================================================== *)

(** The JSON object written by save_best_diff:
    {"value", "short", "hostname", "timestamp"}. *)
Record best_record := {
  rec_value : Z;
  rec_short : string;
  rec_hostname : string;
  rec_timestamp : Z
}.

(** Contents of BEST_DIFF_FILE: a record, or something json.load rejects. *)
Inductive file_content :=
  | FileRecord (r : best_record)
  | FileUnreadable.

(** The module-level [best_diff_history] (None while it is falsy: the
    initial [[]] or the [{}] set after a failed load) and the file
    (None when it does not exist). *)
Record store := {
  best_diff_history : option best_record;
  best_diff_file : option file_content
}.

(** How [open(BEST_DIFF_FILE, "w")] and [json.dump] go. *)
Inductive io_outcome :=
  | WriteOk
  | OpenFails               (* IOError from open: file untouched *)
  | WriteFailsAfterOpen.    (* IOError after truncation: file left unreadable *)

Definition load_best_diff (st : store) : store :=
  match best_diff_history st with
  | Some _ => st
  | None =>
      match best_diff_file st with
      | Some (FileRecord r) =>
          {| best_diff_history := Some r; best_diff_file := best_diff_file st |}
      | Some FileUnreadable =>
          {| best_diff_history := None; best_diff_file := best_diff_file st |}
      | None => st
      end
  end.

(** Suffix stored in "short": the last character of [str(best_diff).upper()]
    if it is G, M or K, else 'G'. *)
Definition save_suffix (best_diff : string) : string :=
  match PyStr.last_char (PyStr.upper best_diff) with
  | Some c =>
      if Ascii.eqb c "G"%char || Ascii.eqb c "M"%char || Ascii.eqb c "K"%char
      then String c EmptyString else "G"
  | None => "G"
  end.

Definition save_best_diff (value : Z) (best_diff hostname : string) (now : Z)
    (io : io_outcome) (st : store) : store :=
  let best := {| rec_value := value; rec_short := save_suffix best_diff;
                 rec_hostname := hostname; rec_timestamp := now |} in
  match io with
  | WriteOk =>
      {| best_diff_history := best_diff_history st;
         best_diff_file := Some (FileRecord best) |}
  | OpenFails => st
  | WriteFailsAfterOpen =>
      {| best_diff_history := best_diff_history st;
         best_diff_file := Some FileUnreadable |}
  end.

(** Result of check_and_update_best_diff: the returned pair, or the
    OverflowError of [int(float("inf"))], which is not caught. *)
Inductive check_outcome :=
  | Returned (new_record : bool) (new_record_value : option string) (st : store)
  | Raised (st : store).

Definition check_and_update_best_diff (best_diff hostname : string) (now : Z)
    (io : io_outcome) (st : store) : check_outcome :=
  let st1 := load_best_diff st in
  let current_best := best_diff_history st1 in
  if String.eqb best_diff "" || String.eqb best_diff "-" then Returned false None st1
  else
    match parse_best_diff best_diff with
    | IntValueError => Returned false None st1
    | IntOverflowError => Raised st1
    | IntOk numeric_val =>
        let is_new :=
          match current_best with
          | None => true
          | Some r => rec_value r <? numeric_val
          end in
        if is_new then
          Returned true (Some (format_best_diff best_diff))
            (save_best_diff numeric_val best_diff hostname now io st1)
        else Returned false None st1
    end.

Definition outcome_store (o : check_outcome) : store :=
  match o with Returned _ _ st => st | Raised st => st end.

Definition outcome_new (o : check_outcome) : bool :=
  match o with Returned b _ _ => b | Raised _ => false end.

Definition file_value (st : store) : option Z :=
  match best_diff_file st with
  | Some (FileRecord r) => Some (rec_value r)
  | _ => None
  end.

(** Sample states: a fresh process with a record of 1000 on disk, and a
    fresh process with no file. *)
Definition rec_1000 : best_record :=
  {| rec_value := 1000; rec_short := "K"; rec_hostname := "bitaxe-a";
     rec_timestamp := 0 |}.

Definition st_disk_1000 : store :=
  {| best_diff_history := None; best_diff_file := Some (FileRecord rec_1000) |}.

Definition st_empty : store :=
  {| best_diff_history := None; best_diff_file := None |}.

(* ===================================================================== *)
(** * Decoded JSON and get_value                                           *)
(* ===================================================================== *)

(** A value produced by [response.json()].  A float is kept as the exact
    decimal [m * 10^e]; an object is its list of (key, value) pairs, keys
    distinct as json.loads builds a dict. *)
#[warnings="-register-all"]
Inductive json :=
  | JNull
  | JBool (b : bool)
  | JInt (z : Z)
  | JFloat (m e : Z)
  | JStr (s : string)
  | JList (l : list json)
  | JObj (kv : list (string * json)).

Abbreviation dict := (list (string * json)).

(** [d[k]] when [k in d]. *)
Fixpoint dict_lookup (k : string) (d : dict) : option json :=
  match d with
  | [] => None
  | (k', v) :: r => if String.eqb k k' then Some v else dict_lookup k r
  end.

Definition is_dict (v : option json) : bool :=
  match v with Some (JObj _) => true | _ => false end.

(** The nested-path loop of get_value, starting from [current = data]. *)
Fixpoint descend (current : json) (keys : list string) : option json :=
  match keys with
  | [] => Some current
  | k :: ks =>
      match current with
      | JObj kv =>
          match dict_lookup k kv with
          | Some v => descend v ks
          | None => None
          end
      | _ => None
      end
  end.

(** The alternatives loop of get_value. *)
Fixpoint first_present (data : dict) (keys : list string) : option json :=
  match keys with
  | [] => None
  | k :: ks =>
      match dict_lookup k data with
      | Some v => Some v
      | None => first_present data ks
      end
  end.

Definition get_value (data : dict) (keys : list string) : option json :=
  match keys with
  | [] => None
  | k0 :: _ =>
      if (1 <? length keys)%nat && is_dict (dict_lookup k0 data)
      then descend (JObj data) keys
      else first_present data keys
  end.

(** Python truthiness of a decoded value. *)
Definition truthy (v : json) : bool :=
  match v with
  | JNull => false
  | JBool b => b
  | JInt z => negb (z =? 0)
  | JFloat m _ => negb (m =? 0)
  | JStr s => negb (String.eqb s "")
  | JList l => negb (Nat.eqb (length l) 0)
  | JObj kv => negb (Nat.eqb (length kv) 0)
  end.

(** [get_value(data, keys) or default]. *)
Definition py_or (v : option json) (default : json) : json :=
  match v with
  | Some x => if truthy x then x else default
  | None => default
  end.

(* ===================================================================== *)
(** * unify_status                                                        *)
(* ===================================================================== *)

Definition f00 : json := JFloat 0 0.          (* 0.0 *)
Definition i0 : json := JInt 0.               (* 0 *)
Definition na : json := JStr "N/A".
Definition dash : json := JStr "-".
Definition unknown : json := JStr "Unknown".
Definition jfalse : json := JBool false.
Definition empty_list : json := JList [].

(** The fields of unify_status in source order: (key, candidates, default). *)
Definition canonical_fields (hostname : string)
  : list (string * list string * json) :=
  [ ("hostname", ["hostname"], JStr hostname);
    ("deviceID", ["deviceID"], na);
    ("ip", ["ip"; "hostip"], na);
    ("mac", ["macAddr"; "mac"], na);
    ("power", ["power"], f00);
    ("powerLimit", ["powerLimit"], f00);
    ("maxPower", ["maxPower"], f00);
    ("minPower", ["minPower"], f00);
    ("voltage", ["voltage"], i0);
    ("current", ["current"], i0);
    ("maxVoltage", ["maxVoltage"], i0);
    ("minVoltage", ["minVoltage"], i0);
    ("nominalVoltage", ["nominalVoltage"], i0);
    ("hashRate", ["hashRate"], f00);
    ("hashRate_1m", ["hashRate_1m"], f00);
    ("hashRate_10m", ["hashRate_10m"], f00);
    ("hashRate_1h", ["hashRate_1h"], f00);
    ("hashRate_1d", ["hashRate_1d"], f00);
    ("expectedHashrate", ["expectedHashrate"], f00);
    ("temp", ["temp"], i0);
    ("vrTemp", ["vrTemp"], i0);
    ("temptarget", ["temptarget"; "pidTargetTemp"], i0);
    ("overheat_temp", ["overheat_temp"], i0);
    ("bestDiff", ["bestDiff"], dash);
    ("bestSessionDiff", ["bestSessionDiff"], dash);
    ("bestDiffTime", ["bestDiffTime"], dash);
    ("poolDifficulty", ["poolDifficulty"], i0);
    ("stratumDifficulty", ["stratumDifficulty"], i0);
    ("sharesAccepted", ["sharesAccepted"], i0);
    ("sharesRejected", ["sharesRejected"], i0);
    ("sharesRejectedReasons", ["sharesRejectedReasons"], empty_list);
    ("coreVoltage", ["coreVoltage"], i0);
    ("defaultCoreVoltage", ["defaultCoreVoltage"], i0);
    ("coreVoltageActual", ["coreVoltageActual"; "coreVoltageActualMV"], i0);
    ("coreVoltageSet", ["coreVoltageSet"], i0);
    ("frequency", ["frequency"], i0);
    ("ssid", ["ssid"], dash);
    ("wifiStatus", ["wifiStatus"], dash);
    ("wifiRSSI", ["wifiRSSI"], i0);
    ("ASICModel", ["ASICModel"], unknown);
    ("deviceModel", ["deviceModel"; "boardVersion"], unknown);
    ("asicCount", ["asicCount"], i0);
    ("smallCoreCount", ["smallCoreCount"], i0);
    ("fanspeed", ["fanspeed"], i0);
    ("fanrpm", ["fanrpm"], i0);
    ("manualFanSpeed", ["manualFanSpeed"], i0);
    ("uptimeSeconds", ["uptimeSeconds"], i0);
    ("freeHeap", ["freeHeap"], i0);
    ("freeHeapInt", ["freeHeapInt"], i0);
    ("version", ["version"], na);
    ("axeOSVersion", ["axeOSVersion"], na);
    ("idfVersion", ["idfVersion"], na);
    ("boardVersion", ["boardVersion"; "deviceModel"], unknown);
    ("stratumURL", ["stratumURL"], dash);
    ("stratumPort", ["stratumPort"], dash);
    ("stratumUser", ["stratumUser"], dash);
    ("fallbackStratumURL", ["fallbackStratumURL"], dash);
    ("fallbackStratumPort", ["fallbackStratumPort"], dash);
    ("fallbackStratumUser", ["fallbackStratumUser"], dash);
    ("isUsingFallbackStratum", ["isUsingFallbackStratum"; "stratum.usingFallback"], jfalse);
    ("duplicateHWNonces", ["duplicateHWNonces"], i0);
    ("foundBlocks", ["foundBlocks"], i0);
    ("totalFoundBlocks", ["totalFoundBlocks"], i0);
    ("defaultFrequency", ["defaultFrequency"], i0);
    ("vrFrequency", ["vrFrequency"], i0);
    ("defaultVrFrequency", ["defaultVrFrequency"], i0);
    ("jobInterval", ["jobInterval"], i0);
    ("lastResetReason", ["lastResetReason"], na);
    ("runningPartition", ["runningPartition"], na);
    ("pidP", ["pidP"], i0);
    ("pidI", ["pidI"], i0);
    ("pidD", ["pidD"], i0);
    ("stratum_poolMode", ["stratum"; "poolMode"], dash);
    ("stratum_activePoolMode", ["stratum"; "activePoolMode"], dash);
    ("stratum_poolBalance", ["stratum"; "poolBalance"], i0);
    ("stratum_totalBestDiff", ["stratum"; "totalBestDiff"], i0);
    ("stratum_poolDifficulty", ["stratum"; "poolDifficulty"], i0);
    ("overheat_mode", ["overheat_mode"], jfalse);
    ("autofanspeed", ["autofanspeed"], jfalse);
    ("invertfanpolarity", ["invertfanpolarity"], jfalse);
    ("flipscreen", ["flipscreen"], jfalse);
    ("invertscreen", ["invertscreen"], jfalse) ].

Definition has_key (k : string) (d : dict) : bool :=
  match dict_lookup k d with Some _ => true | None => false end.

Definition unify_status (data : dict) (hostname : string) : json :=
  if has_key "error" data then JObj data
  else JObj (map (fun '(name, keys, default) =>
                    (name, py_or (get_value data keys) default))
                 (canonical_fields hostname)).

(* ===================================================================== *)
(** * fetch_status and get_all_device_statuses                            *)
(* ===================================================================== *)

(** How the HTTP GET of fetch_status ends: a decoded body (a dict, per the
    signature of fetch_status), asyncio.TimeoutError, aiohttp.ClientError,
    or any other Exception, each failure with its [str(e)]. *)
Inductive fetch_outcome :=
  | FetchBody (body : dict)
  | FetchTimeout
  | FetchClientError (msg : string)
  | FetchUnexpected (msg : string).

Definition fetch_status (o : fetch_outcome) : dict :=
  match o with
  | FetchBody body => body
  | FetchTimeout => [("error", JStr "timeout")]
  | FetchClientError msg => [("error", JStr msg)]
  | FetchUnexpected msg => [("error", JStr msg)]
  end.

(** A device of get_devices(); [dev_ip] is [device_config.get('ip')]. *)
Record device_config := { dev_ip : option string }.

(** STATUS_CACHE[hostname] = {'data': ..., 'timestamp': ...}. *)
Record cache_entry := { ce_data : json; ce_timestamp : Z }.

(** Clock readings are microseconds; CACHE_TTL = timedelta(seconds=5). *)
Definition CACHE_TTL : Z := 5000000.

Definition ip_truthy (cfg : device_config) : option string :=
  match dev_ip cfg with
  | Some ip => if String.eqb ip "" then None else Some ip
  | None => None
  end.

(** The first loop: the (hostname, ip) pairs to fetch, in order.
    [now_check h] is the datetime.now() read while checking [h]. *)
Fixpoint stale_devices (devices : list (string * device_config))
    (cache : gmap string cache_entry) (now_check : string -> Z)
  : list (string * string) :=
  match devices with
  | [] => []
  | (hostname, cfg) :: rest =>
      match ip_truthy cfg with
      | Some ip =>
          match cache !! hostname with
          | Some e =>
              if now_check hostname - ce_timestamp e <? CACHE_TTL
              then stale_devices rest cache now_check
              else (hostname, ip) :: stale_devices rest cache now_check
          | None => (hostname, ip) :: stale_devices rest cache now_check
          end
      | None => stale_devices rest cache now_check
      end
  end.

(** The write loop over [zip(hostnames, results)]; [net ip] is how the
    request to [ip] ends and [now_write h] the datetime.now() of the write. *)
Definition write_results (stale : list (string * string))
    (net : string -> fetch_outcome) (now_write : string -> Z)
    (cache : gmap string cache_entry) : gmap string cache_entry :=
  fold_left
    (fun c '(hostname, ip) =>
       <[hostname := {| ce_data := unify_status (fetch_status (net ip)) hostname;
                        ce_timestamp := now_write hostname |}]> c)
    stale cache.

(** [{name: STATUS_CACHE[name]['data'] for name in devices if name in STATUS_CACHE}]. *)
Definition cached_view (devices : list (string * device_config))
    (cache : gmap string cache_entry) : gmap string json :=
  foldr (fun '(name, _) m =>
           match cache !! name with
           | Some e => <[name := ce_data e]> m
           | None => m
           end) ∅ devices.

(** One call: the new cache, the returned map, and the hostnames whose
    fetch_status was awaited. *)
Definition get_all_device_statuses (devices : list (string * device_config))
    (cache : gmap string cache_entry) (now_check now_write : string -> Z)
    (net : string -> fetch_outcome)
  : gmap string cache_entry * gmap string json * list string :=
  let stale := stale_devices devices cache now_check in
  let cache' := write_results stale net now_write cache in
  (cache', cached_view devices cache', map fst stale).

(* ===================================================================== *)
(** * Auxiliary definitions for the properties                            *)
(* ===================================================================== *)

(** Well-formed difficulty strings as the claim describes them: a decimal
    number (digits, then optionally "." and digits) and at most one suffix
    letter K, M or G in either case. *)
Inductive magnitude := MagK | MagM | MagG.

Definition mag_char (m : magnitude) (is_upper : bool) : ascii :=
  match m, is_upper with
  | MagK, true => "K" | MagK, false => "k"
  | MagM, true => "M" | MagM, false => "m"
  | MagG, true => "G" | MagG, false => "g"
  end.

Definition mag_exp (m : magnitude) : Z :=
  match m with MagK => 3 | MagM => 6 | MagG => 9 end.

Definition is_digit_val (d : Z) : Prop := 0 <= d <= 9.

Definition digits_str (ds : list Z) : string :=
  fold_right (fun d s => String (Fmt.digit_char d) s) EmptyString ds.

Definition frac_str (fp : option (list Z)) : string :=
  match fp with Some f => String "." (digits_str f) | None => EmptyString end.

Definition suffix_str (suf : option (magnitude * bool)) : string :=
  match suf with Some (m, u) => String (mag_char m u) EmptyString | None => EmptyString end.

Definition diff_string (ip : list Z) (fp : option (list Z))
    (suf : option (magnitude * bool)) : string :=
  digits_str ip ++ frac_str fp ++ suffix_str suf.

Definition frac_digits (fp : option (list Z)) : list Z :=
  match fp with Some f => f | None => [] end.

Definition suffix_exp (suf : option (magnitude * bool)) : Z :=
  match suf with Some (m, _) => mag_exp m | None => 0 end.

(** The claim's magnitude, truncated to an integer: the number is
    [digits_val (ip ++ f) / 10^|f|], scaled by [10^k]. *)
Definition diff_magnitude (ip : list Z) (fp : option (list Z))
    (suf : option (magnitude * bool)) : Z :=
  PyFloat.digits_val (ip ++ frac_digits fp) * 10 ^ suffix_exp suf
    / 10 ^ Z.of_nat (length (frac_digits fp)).

(** What may follow a digit part without extending it. *)
Definition head_ok (s : string) : bool :=
  match s with
  | EmptyString => true
  | String c _ => negb (PyStr.is_digit c) && negb (Ascii.eqb c "_")
  end.

Fixpoint no_space (s : string) : bool :=
  match s with
  | EmptyString => true
  | String c t => negb (PyStr.is_space c) && no_space t
  end.

(** The string seen by [float] for a well-formed difficulty string: the
    suffix letter has become "e3", "e6" or "e9". *)
Definition exp_tail (suf : option (magnitude * bool)) : string :=
  match suf with
  | Some (m, _) => String "e" (String (Fmt.digit_char (mag_exp m)) EmptyString)
  | None => EmptyString
  end.

(** The two-mode rule as the spec words it: a path is followed key by key
    from the payload, every step needing a container; alternatives return
    the value of the first candidate key present at top level. *)
Definition step_into (acc : option json) (k : string) : option json :=
  match acc with
  | Some (JObj kv) => dict_lookup k kv
  | _ => None
  end.

Definition resolve_path_spec (data : dict) (keys : list string) : option json :=
  fold_left step_into keys (Some (JObj data)).

Definition resolve_alternatives_spec (data : dict) (keys : list string) : option json :=
  match List.find (fun k => has_key k data) keys with
  | Some k => dict_lookup k data
  | None => None
  end.

Definition resolve_candidates_spec (data : dict) (keys : list string) : option json :=
  match keys with
  | [] => None
  | k0 :: _ =>
      if (2 <=? length keys)%nat &&
         (match dict_lookup k0 data with Some (JObj _) => true | _ => false end)
      then resolve_path_spec data keys
      else resolve_alternatives_spec data keys
  end.

(** The JSON type of a value, to compare a field with its default. *)
Definition same_kind (v w : json) : bool :=
  match v, w with
  | JNull, JNull | JBool _, JBool _ | JInt _, JInt _ | JFloat _ _, JFloat _ _
  | JStr _, JStr _ | JList _, JList _ | JObj _, JObj _ => true
  | _, _ => false
  end.

(** Every canonical field present, with a value of its default's type. *)
Definition fields_typed (j : json) (hostname : string) : Prop :=
  match j with
  | JObj l =>
      Forall (fun '(name, _, default) =>
                exists v, dict_lookup name l = Some v /\ same_kind v default = true)
             (canonical_fields hostname)
  | _ => False
  end.

Definition field_value (j : json) (name : string) : option json :=
  match j with JObj l => dict_lookup name l | _ => None end.

Definition canonical_names : list string :=
  map (fun '(name, _, _) => name) (canonical_fields "").

Fixpoint nodupb (l : list string) : bool :=
  match l with
  | [] => true
  | x :: r => negb (existsb (String.eqb x) r) && nodupb r
  end.

(** Whether the first loop finds a cache entry for [h] younger than
    CACHE_TTL. *)
Definition fresh (cache : gmap string cache_entry) (now_check : string -> Z)
    (h : string) : bool :=
  match cache !! h with
  | Some e => now_check h - ce_timestamp e <? CACHE_TTL
  | None => false
  end.

Definition fetch_count (fetched : list string) (h : string) : nat :=
  count_occ string_dec fetched h.

(** The error taxonomy of the spec: FetchError{Timeout, ClientError, Unexpected}. *)
Inductive fetch_error_kind := KTimeout | KClientError | KUnexpected.

Definition new_entry (net : string -> fetch_outcome) (now_write : string -> Z)
    (h ip : string) : cache_entry :=
  {| ce_data := unify_status (fetch_status (net ip)) h; ce_timestamp := now_write h |}.

(* ===================================================================== *)
(** * status_overview.py: embed text helpers                              *)
(* ===================================================================== *)

(** A Python [str] as its list of code points: [len], indexing and
    slicing count code points. *)
Abbreviation pystr := (list Z).

Definition BACKTICK : Z := 96.
Definition NEWLINE : Z := 10.
Definition fence3 : pystr := [BACKTICK; BACKTICK; BACKTICK].

(** The bound [k] of a slice [s[i:j]], made non-negative and clamped. *)
Definition slice_index (len k : Z) : Z :=
  if k <? 0 then Z.max 0 (k + len) else Z.min k len.

(** [s[i:j]]. *)
Definition py_slice {A : Type} (s : list A) (i j : Z) : list A :=
  let len := Z.of_nat (length s) in
  let i' := slice_index len i in
  let j' := slice_index len j in
  firstn (Z.to_nat (j' - i')) (skipn (Z.to_nat i') s).

(** [range(start, stop, step)]; None for the ValueError of step 0. *)
Definition py_range (start stop step : Z) : option (list Z) :=
  if step =? 0 then None
  else
    let n := if 0 <? step then (stop - start + step - 1) / step
             else (start - stop - step - 1) / (- step) in
    Some (map (fun k => start + Z.of_nat k * step) (seq 0 (Z.to_nat n))).

(** [s.startswith(p)] and [s.endswith(p)]. *)
Fixpoint starts_with (p s : pystr) : bool :=
  match p, s with
  | [], _ => true
  | x :: p', y :: s' => (x =? y) && starts_with p' s'
  | _ :: _, [] => false
  end.

Definition ends_with (p s : pystr) : bool := starts_with (rev p) (rev s).

(** [s.split("\n", 1)[0]]: everything before the first newline. *)
Fixpoint before_newline (s : pystr) : pystr :=
  match s with
  | [] => []
  | c :: r => if c =? NEWLINE then [] else c :: before_newline r
  end.

(** [[s[i:i + n] for i in range(0, len(s), n)]]. *)
Definition py_chunks (s : pystr) (n : Z) : option (list pystr) :=
  match py_range 0 (Z.of_nat (length s)) n with
  | Some idx => Some (map (fun i => py_slice s i (i + n)) idx)
  | None => None
  end.

(** chunk_embed_field(value, max_length); None is the ValueError raised by
    [range] when its step is 0. *)
Definition chunk_embed_field (value : pystr) (max_length : Z) : option (list pystr) :=
  if starts_with fence3 value && ends_with fence3 value then
    let code_fence := before_newline value in
    let inner := py_slice value (Z.of_nat (length code_fence) + 1) (-3) in
    match py_chunks inner (max_length - Z.of_nat (length code_fence) - 4) with
    | Some chunks =>
        Some (map (fun chunk => (code_fence ++ [NEWLINE] ++ chunk ++ fence3)%list) chunks)
    | None => None
    end
  else py_chunks value max_length.

(** The loop building history_message in format_status_embeds: a line is
    appended while message, line and footer fit in 1024 characters; the
    first line that does not fit ends the loop. *)
Fixpoint history_loop (msg : pystr) (lines : list pystr) (footer : pystr) : pystr :=
  match lines with
  | [] => msg
  | line :: rest =>
      if 1024 <? Z.of_nat (length msg) + Z.of_nat (length line) + Z.of_nat (length footer)
      then msg
      else history_loop (msg ++ line)%list rest footer
  end.

Definition history_message (header : pystr) (lines : list pystr) (footer : pystr) : pystr :=
  (history_loop header lines footer ++ footer)%list.

(** The countdown of format_status_embeds: [time_until_next_update] as
    (minutes_left, seconds_left), [now] being [int(time.time())]; None when
    [now % update_interval] raises ZeroDivisionError and the except branch
    prints the interval instead. *)
Definition next_update (update_interval now : Z) : option (Z * Z) :=
  if update_interval =? 0 then None
  else
    let t := update_interval - now mod update_interval in
    let t := if t <=? 0 then update_interval else t in
    Some (t / 60, t mod 60).

(** [str(n)] for an int. *)
Definition str_nonneg (n : Z) : string :=
  fold_left (fun acc d => String (Fmt.digit_char d) acc)
            (Fmt.digits_rev (S (Z.to_nat (Z.log2 n))) n) EmptyString.

Definition str_int (n : Z) : string :=
  if n <? 0 then "-" ++ str_nonneg (- n) else str_nonneg n.

(** format_time_ago, local to format_status_embeds. *)
Definition format_time_ago (minutes : Z) : string :=
  let days := minutes / 1440 in
  let remainder := minutes mod 1440 in
  let hours := remainder / 60 in
  let mins := remainder mod 60 in
  let t1 := if 0 <? days then str_int days ++ " Tage " else "" in
  let t2 := if 0 <? hours then t1 ++ str_int hours ++ " Stunden " else t1 in
  let t3 := if 0 <? mins then t2 ++ str_int mins ++ " Minuten" else t2 in
  PyStr.strip t3.

(** A string whose first character is not whitespace. *)
Definition head_nonspace (s : string) : Prop :=
  exists c t, s = String c t /\ PyStr.is_space c = false.

(* ===================================================================== *)
(** * status_overview.py: threshold lights, suffix and summary            *)
(* ===================================================================== *)

(** Python's [<] and [<=] between numbers: int and float compare by their
    exact values. *)
Definition py_lt (x y : Q) : bool := negb (Qle_bool y x).
Definition py_le (x y : Q) : bool := Qle_bool x y.

(** get_temp_emoji(value, temp_thresholds, temp_emojis); None is the
    IndexError of a list too short for the branch taken. *)
Definition get_temp_emoji {A : Type} (value : Q) (temp_thresholds : list Q)
    (temp_emojis : list A) : option A :=
  match nth_error temp_thresholds 0 with
  | None => None
  | Some t0 =>
      if py_lt value t0 then nth_error temp_emojis 0
      else match nth_error temp_thresholds 1 with
           | None => None
           | Some t1 =>
               if py_lt value t1 then nth_error temp_emojis 1
               else nth_error temp_emojis 2
           end
  end.

(** get_fan_emoji(value, fan_thresholds, fan_emojis). *)
Definition get_fan_emoji {A : Type} (value : Q) (fan_thresholds : list Q)
    (fan_emojis : list A) : option A :=
  match nth_error fan_thresholds 0 with
  | None => None
  | Some t0 =>
      if py_le value t0 then nth_error fan_emojis 2
      else match nth_error fan_thresholds 1 with
           | None => None
           | Some t1 =>
               if py_le value t1 then nth_error fan_emojis 1
               else nth_error fan_emojis 0
           end
  end.

(** get_volt_emoji(value, thresholds, emojis). *)
Definition get_volt_emoji {A : Type} (value : Q) (thresholds : list Q)
    (emojis : list A) : option A :=
  match nth_error thresholds 2 with
  | None => None
  | Some t2 =>
      if py_le t2 value then nth_error emojis 2
      else match nth_error thresholds 1 with
           | None => None
           | Some t1 =>
               if py_le t1 value then nth_error emojis 1
               else nth_error emojis 0
           end
  end.

(** get_best_diff_suffix(best_diff) on the string [str(best_diff)]. *)
Definition get_best_diff_suffix (best_diff : string) : string :=
  match PyStr.last_char (PyStr.upper (PyStr.strip best_diff)) with
  | Some c =>
      if Ascii.eqb c "G"%char || Ascii.eqb c "M"%char || Ascii.eqb c "K"%char
      then String c EmptyString else ""
  | None => ""
  end.

(** The numbers [sum] adds: bool and int as their values, a float as its
    exact decimal (the rounding of float addition is not modelled); [0 + x]
    raises TypeError (None) for a string, null, list or object. *)
Definition json_num (v : json) : option Q :=
  match v with
  | JBool b => Some (if b then 1 else 0)%Q
  | JInt z => Some (inject_Z z)
  | JFloat m e =>
      Some (if 0 <=? e then inject_Z (m * 10 ^ e) else Qmake m (Z.to_pos (10 ^ (- e))))
  | _ => None
  end.

(** [sum(xs)], starting from 0. *)
Definition py_sum (xs : list json) : option Q :=
  fold_left (fun acc v =>
               match acc, json_num v with
               | Some a, Some x => Some (a + x)%Q
               | _, _ => None
               end) xs (Some 0%Q).

(** [s.get(k, default)]. *)
Definition dict_get (k : string) (default : json) (s : dict) : json :=
  match dict_lookup k s with Some v => v | None => default end.

Definition is_online (s : dict) : bool := negb (has_key "error" s).

(** build_summary(data): [data] maps each hostname to its status dict, in
    insertion order; the result is (total_devices, online_devices,
    offline_devices, total_hashrate, total_power, total_efficiency), None
    when a sum raises TypeError. *)
Definition build_summary (data : list (string * dict))
  : option (Z * Z * Z * Q * Q * Q) :=
  let vals := map snd data in
  let total_devices := Z.of_nat (length vals) in
  let online := List.filter is_online vals in
  let online_devices := Z.of_nat (length online) in
  let offline_devices := total_devices - online_devices in
  match py_sum (map (dict_get "hashRate" (JInt 0)) online) with
  | None => None
  | Some total_hashrate =>
      match py_sum (map (dict_get "power" (JInt 0)) online) with
      | None => None
      | Some total_power =>
          let total_efficiency :=
            if py_lt 0 total_power then (total_hashrate / total_power)%Q else 0%Q in
          Some (total_devices, online_devices, offline_devices,
                total_hashrate, total_power, total_efficiency)
      end
  end.

(* ===================================================================== *)
(** * Examples                                                            *)
(* ===================================================================== *)

Example parse_ex1 : parse_best_diff "1.5M" = IntOk 1500000. Proof. reflexivity. Qed.
Example parse_ex2 : parse_best_diff "2G" = IntOk 2000000000. Proof. reflexivity. Qed.
Example parse_ex3 : parse_best_diff "900K" = IntOk 900000. Proof. reflexivity. Qed.
Example parse_ex4 : parse_best_diff "500" = IntOk 500. Proof. reflexivity. Qed.
Example parse_ex5 : parse_best_diff "1.0005K" = IntOk 1000. Proof. reflexivity. Qed.
Example parse_ex6 : parse_best_diff "-" = IntValueError. Proof. reflexivity. Qed.
Example parse_ex7 : parse_best_diff " 1_0k " = IntOk 10000. Proof. reflexivity. Qed.
Example parse_ex8 : parse_best_diff "inf" = IntOverflowError. Proof. reflexivity. Qed.

Example format_ex1 : format_best_diff "2.1M" = "2,100,000 (M)". Proof. reflexivity. Qed.
Example format_ex2 : format_best_diff "500" = "500". Proof. reflexivity. Qed.
Example format_ex3 : format_best_diff "abc" = "abc". Proof. reflexivity. Qed.

Example check_ex1 :
  check_and_update_best_diff "1.5M" "a" 1 WriteOk st_disk_1000 =
  Returned true (Some "1,500,000 (M)")
    {| best_diff_history := Some rec_1000;
       best_diff_file := Some (FileRecord {| rec_value := 1500000; rec_short := "M";
                                             rec_hostname := "a"; rec_timestamp := 1 |}) |}.
Proof. reflexivity. Qed.

(* ===================================================================== *)
(** * Properties of the best-difficulty store                             *)
(* ===================================================================== *)

Section BestStore.

Lemma load_best_diff_file (st : store) :
  best_diff_file (load_best_diff st) = best_diff_file st.
Proof.
  destruct st as [[r|] [[r'|]|]]; reflexivity.
Qed.

Lemma load_best_diff_idem (st : store) :
  load_best_diff (load_best_diff st) = load_best_diff st.
Proof.
  destruct st as [[r|] [[r'|]|]]; reflexivity.
Qed.

Lemma save_best_diff_history (value : Z) (bd h : string) (now : Z)
    (io : io_outcome) (st : store) :
  best_diff_history (save_best_diff value bd h now io st) = best_diff_history st.
Proof.
  destruct io; reflexivity.
Qed.

Lemma parse_best_diff_empty : parse_best_diff "" = IntValueError.
Proof. reflexivity. Qed.

Lemma parse_best_diff_dash : parse_best_diff "-" = IntValueError.
Proof. reflexivity. Qed.

(** Every path of check_and_update_best_diff goes through the parse: the
    early return on "" and "-" agrees with the parse failure there. *)
Lemma check_by_parse (bd h : string) (now : Z) (io : io_outcome) (st : store) :
  check_and_update_best_diff bd h now io st =
  match parse_best_diff bd with
  | IntValueError => Returned false None (load_best_diff st)
  | IntOverflowError => Raised (load_best_diff st)
  | IntOk n =>
      if match best_diff_history (load_best_diff st) with
         | None => true
         | Some r => rec_value r <? n
         end
      then Returned true (Some (format_best_diff bd))
             (save_best_diff n bd h now io (load_best_diff st))
      else Returned false None (load_best_diff st)
  end.
Proof.
  unfold check_and_update_best_diff.
  destruct (String.eqb_spec bd "") as [->|_]; [reflexivity|].
  destruct (String.eqb_spec bd "-") as [->|_]; reflexivity.
Qed.

End BestStore.

(** ** C1 *)

(** C1 (code_bug): the persisted best value can decrease.  With a record of
    1000 on disk, "5K" persists 5000 but leaves the in-memory copy at 1000,
    so a later "2K" (2000 > 1000) is taken as a new record and overwrites
    the file with 2000 < 5000. *)
Theorem C1_persisted_value_decreases :
  let o1 := check_and_update_best_diff "5K" "bitaxe-a" 1 WriteOk st_disk_1000 in
  let o2 := check_and_update_best_diff "2K" "bitaxe-b" 2 WriteOk (outcome_store o1) in
  file_value (outcome_store o1) = Some 5000 /\
  outcome_new o2 = true /\
  file_value (outcome_store o2) = Some 2000 /\
  best_diff_history (outcome_store o2) = Some rec_1000.
Proof. vm_compute. repeat split. Qed.

(** ** C2 *)

(** C2 (code_bug): the same difficulty string reported twice in a row is a
    new record both times once a record has been loaded into memory. *)
Theorem C2_repeated_input_reported_twice :
  let o1 := check_and_update_best_diff "5K" "bitaxe-a" 1 WriteOk st_disk_1000 in
  let o2 := check_and_update_best_diff "5K" "bitaxe-a" 2 WriteOk (outcome_store o1) in
  o1 = Returned true (Some "5,000 (K)") (outcome_store o1) /\
  o2 = Returned true (Some "5,000 (K)") (outcome_store o2).
Proof. vm_compute. split; reflexivity. Qed.

(** ** C3 *)

(** C3 (counterexample): with no record yet, a magnitude of 0 does create
    the first record: "0" is reported as new and 0 is persisted. *)
Lemma C3_zero_creates_first_record :
  outcome_new (check_and_update_best_diff "0" "bitaxe-a" 0 WriteOk st_empty) = true /\
  file_value (outcome_store (check_and_update_best_diff "0" "bitaxe-a" 0 WriteOk st_empty))
  = Some 0.
Proof. vm_compute. split; reflexivity. Qed.

(** C3 (amended): check_and_update_best_diff returns (False, None) and
    changes nothing but the one-time load of the file into memory when the
    string is empty, "-", or fails to parse, and when a record is held in
    memory and the parsed magnitude is not strictly greater than its value;
    when no record is held in memory, any parsed magnitude (0 and negative
    ones included) is reported as a new record. *)
Theorem C3_noop_paths_and_first_record (best_diff hostname : string) (now : Z)
    (io : io_outcome) (st : store) :
  ((best_diff = "" \/ best_diff = "-" \/ parse_best_diff best_diff = IntValueError \/
    (exists r n, best_diff_history (load_best_diff st) = Some r /\
                 parse_best_diff best_diff = IntOk n /\ n <= rec_value r)) ->
   check_and_update_best_diff best_diff hostname now io st =
     Returned false None (load_best_diff st) /\
   best_diff_file (load_best_diff st) = best_diff_file st)
  /\
  (forall n, best_diff_history (load_best_diff st) = None ->
     parse_best_diff best_diff = IntOk n ->
     check_and_update_best_diff best_diff hostname now io st =
       Returned true (Some (format_best_diff best_diff))
         (save_best_diff n best_diff hostname now io (load_best_diff st))).
Proof.
  split.
  - intros H. split; [|apply load_best_diff_file].
    rewrite check_by_parse.
    destruct H as [->|[->|[Hp|(r & n & Hm & Hp & Hle)]]].
    + reflexivity.
    + reflexivity.
    + rewrite Hp. reflexivity.
    + rewrite Hp, Hm.
      replace (rec_value r <? n) with false by (symmetry; apply Z.ltb_ge; lia).
      reflexivity.
  - intros n Hm Hp.
    rewrite check_by_parse, Hp, Hm. reflexivity.
Qed.

Lemma C3_witness :
  (check_and_update_best_diff "1K" "bitaxe-b" 3 WriteOk
     {| best_diff_history := Some rec_1000; best_diff_file := None |} =
   Returned false None
     (load_best_diff {| best_diff_history := Some rec_1000; best_diff_file := None |}) /\
   best_diff_file (load_best_diff {| best_diff_history := Some rec_1000;
                                     best_diff_file := None |}) = None)
  /\
  check_and_update_best_diff "0" "bitaxe-a" 0 WriteOk st_empty =
    Returned true (Some (format_best_diff "0"))
      (save_best_diff 0 "0" "bitaxe-a" 0 WriteOk (load_best_diff st_empty)).
Proof.
  split.
  - apply (proj1 (C3_noop_paths_and_first_record "1K" "bitaxe-b" 3 WriteOk
                    {| best_diff_history := Some rec_1000; best_diff_file := None |})).
    right; right; right. exists rec_1000, 1000.
    split; [reflexivity|]. split; [reflexivity|]. simpl. lia.
  - exact (proj2 (C3_noop_paths_and_first_record "0" "bitaxe-a" 0 WriteOk st_empty)
             0 eq_refl eq_refl).
Defined.

(** ** C10 *)

(** C10 (code_bug): check_and_update_best_diff never writes the new record
    into the in-memory copy: after any call, memory holds exactly what
    load_best_diff put there.  In particular, when persisting fails
    (open raises IOError), the call still reports a new record, the file
    keeps the old value, and memory keeps the old value too: no copy holds
    the new record. *)
Theorem C10_memory_never_takes_new_record :
  (forall bd h now io st,
     best_diff_history (outcome_store (check_and_update_best_diff bd h now io st)) =
     best_diff_history (load_best_diff st))
  /\
  (let st0 := {| best_diff_history := Some rec_1000;
                 best_diff_file := Some (FileRecord rec_1000) |} in
   check_and_update_best_diff "5K" "bitaxe-a" 1 OpenFails st0 =
   Returned true (Some "5,000 (K)") st0).
Proof.
  split.
  - intros bd h now io st. rewrite check_by_parse.
    destruct (parse_best_diff bd) as [n| |]; try reflexivity.
    destruct (match best_diff_history (load_best_diff st) with
              | None => true | Some r => rec_value r <? n end); simpl;
      [apply save_best_diff_history | reflexivity].
  - reflexivity.
Qed.

(** ** C4 *)

Section ParseWellFormed.
Import PyStr PyFloat.

Lemma digit_char_facts (d : Z) : is_digit_val d ->
  let c := Fmt.digit_char d in
  lower_char c = c /\ is_digit c = true /\ digit_val c = d /\
  is_space c = false /\
  Ascii.eqb c "g" = false /\ Ascii.eqb c "m" = false /\ Ascii.eqb c "k" = false /\
  Ascii.eqb c "+" = false /\ Ascii.eqb c "-" = false /\ Ascii.eqb c "i" = false /\
  Ascii.eqb c "n" = false.
Proof.
  unfold is_digit_val; intros Hd.
  assert (d = 0 \/ d = 1 \/ d = 2 \/ d = 3 \/ d = 4 \/ d = 5 \/ d = 6 \/ d = 7 \/
          d = 8 \/ d = 9) as Hc by lia.
  repeat destruct Hc as [->|Hc]; subst; vm_compute; repeat split.
Qed.

Lemma map_str_app (f : ascii -> ascii) (a b : string) :
  map_str f (a ++ b) = map_str f a ++ map_str f b.
Proof. induction a as [|c a IH]; simpl; [reflexivity|now rewrite IH]. Qed.

Lemma str_app_assoc (a b c : string) : (a ++ b) ++ c = a ++ (b ++ c).
Proof. induction a as [|x a IH]; simpl; [reflexivity|now rewrite IH]. Qed.

Lemma replace_char_app (c : ascii) (r a b : string) :
  replace_char c r (a ++ b) = replace_char c r a ++ replace_char c r b.
Proof.
  induction a as [|d a IH]; simpl; [reflexivity|].
  destruct (Ascii.eqb d c); rewrite IH; [symmetry; apply str_app_assoc|reflexivity].
Qed.

Lemma lower_digits (ds : list Z) : Forall is_digit_val ds ->
  lower (digits_str ds) = digits_str ds.
Proof.
  induction 1 as [|d ds Hd _ IH]; [reflexivity|].
  unfold lower in *; simpl. rewrite IH.
  now rewrite (proj1 (digit_char_facts d Hd)).
Qed.

Lemma replace_digits (c : ascii) (r : string) (ds : list Z) :
  (forall d, is_digit_val d -> Ascii.eqb (Fmt.digit_char d) c = false) ->
  Forall is_digit_val ds ->
  replace_char c r (digits_str ds) = digits_str ds.
Proof.
  intros Hc. induction 1 as [|d ds Hd _ IH]; [reflexivity|].
  simpl. rewrite (Hc d Hd). now rewrite IH.
Qed.

Lemma more_digits_app (ds : list Z) (rest : string) :
  Forall is_digit_val ds -> head_ok rest = true ->
  more_digits (digits_str ds ++ rest) = (ds, rest).
Proof.
  intros Hds Hr. induction Hds as [|d ds Hd _ IH]; simpl.
  - destruct rest as [|c t]; [reflexivity|]. simpl in Hr.
    apply andb_prop in Hr as [H1 H2]. apply negb_true_iff in H1, H2.
    simpl. now rewrite H1, H2.
  - destruct (digit_char_facts d Hd) as (_ & Hdig & Hval & _).
    rewrite Hdig, IH, Hval. reflexivity.
Qed.

Lemma opt_digits_app (ds : list Z) (rest : string) :
  Forall is_digit_val ds -> head_ok rest = true ->
  opt_digits (digits_str ds ++ rest) = (ds, rest).
Proof.
  intros Hds Hr. destruct Hds as [|d ds Hd Hds]; simpl.
  - destruct rest as [|c t]; [reflexivity|]. simpl in Hr.
    apply andb_prop in Hr as [H1 _]. apply negb_true_iff in H1.
    simpl. now rewrite H1.
  - destruct (digit_char_facts d Hd) as (_ & Hdig & Hval & _).
    rewrite Hdig, more_digits_app, Hval by assumption. reflexivity.
Qed.

Lemma no_space_app (a b : string) : no_space (a ++ b) = no_space a && no_space b.
Proof. induction a as [|c a IH]; simpl; [reflexivity|]. rewrite IH. apply andb_assoc. Qed.

Lemma no_space_digits (ds : list Z) : Forall is_digit_val ds -> no_space (digits_str ds) = true.
Proof.
  induction 1 as [|d ds Hd _ IH]; [reflexivity|]. simpl. rewrite IH.
  now rewrite (proj1 (proj2 (proj2 (proj2 (digit_char_facts d Hd))))).
Qed.

Lemma strip_no_space (s : string) : no_space s = true -> strip s = s.
Proof.
  intros H. unfold strip.
  assert (Hl : lstrip s = s).
  { destruct s as [|c t]; [reflexivity|]. simpl in *.
    apply andb_prop in H as [H _]. apply negb_true_iff in H. now rewrite H. }
  rewrite Hl. clear Hl. induction s as [|c t IH]; [reflexivity|].
  simpl in *. apply andb_prop in H as [Hc Ht]. apply negb_true_iff in Hc.
  rewrite (IH Ht). destruct t; [now rewrite Hc|reflexivity].
Qed.

Lemma round_exact_int (v d : Z) : 0 <= v <= 2 ^ 53 -> 0 < d ->
  exists m e, round_binary64 (v * d) d = Some (m, e) /\ trunc 1 m e = v.
Proof.
  intros Hv Hd. unfold round_binary64.
  destruct (Z.eqb_spec (v * d) 0) as [H0|H0].
  - exists 0, 0. split; [reflexivity|]. assert (v = 0) by nia. subst. reflexivity.
  - assert (Hv1 : 1 <= v) by nia.
    assert (Hfl : floor_log2 (v * d) d = Z.log2 v).
    { unfold floor_log2. rewrite (proj2 (Z.leb_le d (v * d))) by nia.
      rewrite Z.div_mul by lia. reflexivity. }
    rewrite Hfl.
    pose proof (Z.log2_nonneg v) as Hl0.
    assert (Hl53 : Z.log2 v <= 53)
      by (rewrite <- (Z.log2_pow2 53) by lia; apply Z.log2_le_mono; lia).
    pose proof (Z.log2_spec v ltac:(lia)) as [Hlo Hhi].
    set (l := Z.log2 v) in *. clearbody l.
    replace (Z.max (l - 52) (-1074)) with (l - 52) by lia.
    cbv zeta.
    destruct (Z.leb_spec 0 (l - 52)) as [He|He].
    + assert (Hw : exists w, v = w * 2 ^ (l - 52) /\ 0 <= w <= 2 ^ 53).
      { assert (l = 52 \/ l = 53) as [El|El] by lia; rewrite El.
        - exists v. split; [simpl; lia|lia].
        - exists (2 ^ 52). split; [|lia]. rewrite El in Hlo. simpl in *. lia. }
      destruct Hw as [w [-> Hw]].
      pose proof (Z.pow_pos_nonneg 2 (l - 52) ltac:(lia) He) as Hp.
      replace (w * 2 ^ (l - 52) * d) with (w * (d * 2 ^ (l - 52))) by ring.
      rewrite Z.div_mul, Z_mod_mult by nia.
      replace (d * 2 ^ (l - 52) <? 2 * 0) with false by (symmetry; apply Z.ltb_ge; nia).
      replace (2 * 0 =? d * 2 ^ (l - 52)) with false by (symmetry; apply Z.eqb_neq; nia).
      simpl andb. simpl orb. cbv iota.
      replace (2 ^ 1024 <=? w * 2 ^ (l - 52)) with false.
      * exists w, (l - 52). split; [reflexivity|]. unfold trunc.
        rewrite (proj2 (Z.leb_le 0 (l - 52)) He). lia.
      * symmetry. apply Z.leb_gt.
        assert (2 ^ 53 < 2 ^ 1024) by (apply Z.pow_lt_mono_r; lia). nia.
    + pose proof (Z.pow_pos_nonneg 2 (- (l - 52)) ltac:(lia) ltac:(lia)) as Hp.
      replace (v * d * 2 ^ (- (l - 52))) with (v * 2 ^ (- (l - 52)) * d) by ring.
      rewrite Z.div_mul, Z_mod_mult by lia.
      replace (d <? 2 * 0) with false by (symmetry; apply Z.ltb_ge; lia).
      replace (2 * 0 =? d) with false by (symmetry; apply Z.eqb_neq; lia).
      simpl andb. simpl orb. cbv iota.
      exists (v * 2 ^ (- (l - 52))), (l - 52). split; [reflexivity|].
      unfold trunc. rewrite (proj2 (Z.leb_gt 0 (l - 52)) He).
      rewrite Z.div_mul by lia. lia.
Qed.

Lemma round_overflow (n d : Z) : 0 < d -> 2 ^ 1024 * d <= n -> round_binary64 n d = None.
Proof.
  intros Hd Hn. unfold round_binary64.
  assert (Hp : 0 < 2 ^ 1024) by (apply Z.pow_pos_nonneg; lia).
  destruct (Z.eqb_spec n 0) as [H0|H0]; [nia|].
  assert (Hq : 2 ^ 1024 <= n / d) by (apply Z.div_le_lower_bound; lia).
  assert (Hfl : floor_log2 n d = Z.log2 (n / d)).
  { unfold floor_log2. rewrite (proj2 (Z.leb_le d n)) by nia. reflexivity. }
  rewrite Hfl.
  pose proof (Z.log2_spec (n / d) ltac:(lia)) as [Hlo _].
  assert (Hl : 1024 <= Z.log2 (n / d))
    by (rewrite <- (Z.log2_pow2 1024) by lia; apply Z.log2_le_mono; lia).
  set (l := Z.log2 (n / d)) in *.
  replace (Z.max (l - 52) (-1074)) with (l - 52) by lia.
  cbv zeta.
  rewrite (proj2 (Z.leb_le 0 (l - 52))) by lia.
  pose proof (Z.pow_pos_nonneg 2 (l - 52) ltac:(lia) ltac:(lia)) as He.
  assert (Hsplit : 2 ^ l = 2 ^ 52 * 2 ^ (l - 52))
    by (rewrite <- Z.pow_add_r by lia; f_equal; lia).
  assert (Hq2 : 2 ^ 52 <= n / (d * 2 ^ (l - 52))).
  { rewrite <- Z.div_div by lia. apply Z.div_le_lower_bound; lia. }
  set (q := n / (d * 2 ^ (l - 52))) in *.
  assert (Hq3 : 2 ^ 1024 <= q * 2 ^ (l - 52)).
  { assert (2 ^ 1024 <= 2 ^ l) by (apply Z.pow_le_mono_r; lia). nia. }
  match goal with |- context [if ?b then q + 1 else q] => destruct b end;
    rewrite (proj2 (Z.leb_le _ _)) by nia; reflexivity.
Qed.

Lemma digits_val_acc_nonneg (acc : Z) (ds : list Z) :
  0 <= acc -> Forall (fun d => 0 <= d <= 9) ds -> 0 <= digits_val_acc acc ds.
Proof.
  intros Ha Hds. revert acc Ha.
  induction Hds as [|d ds Hd _ IH]; intros acc Ha; simpl; [exact Ha|].
  apply IH. lia.
Qed.

Lemma decimal_exact (n k nf : Z) :
  0 <= k -> 0 <= nf -> 0 <= n -> (n * 10 ^ k) mod 10 ^ nf = 0 ->
  n * 10 ^ k / 10 ^ nf <= 2 ^ 53 ->
  float_to_int (decimal_to_float 1 n (k - nf)) = IntOk (n * 10 ^ k / 10 ^ nf).
Proof.
  intros Hk Hnf Hn Hmod Hle.
  assert (Hp : 0 < 10 ^ nf) by (apply Z.pow_pos_nonneg; lia).
  assert (Hpk : 0 < 10 ^ k) by (apply Z.pow_pos_nonneg; lia).
  assert (Hv : 0 <= n * 10 ^ k / 10 ^ nf) by (apply Z.div_pos; nia).
  pose proof (Z.div_exact (n * 10 ^ k) (10 ^ nf) ltac:(lia)) as [_ Hex].
  specialize (Hex Hmod).
  set (v := n * 10 ^ k / 10 ^ nf) in *. clearbody v.
  unfold decimal_to_float.
  destruct (Z.leb_spec 0 (k - nf)) as [Hd|Hd].
  - assert (Hn' : n * 10 ^ (k - nf) = v * 1).
    { assert (Hs : 10 ^ k = 10 ^ (k - nf) * 10 ^ nf)
        by (rewrite <- Z.pow_add_r by lia; f_equal; lia).
      rewrite Hs in Hex. nia. }
    rewrite Hn'.
    destruct (round_exact_int v 1 ltac:(lia) ltac:(lia)) as (m & e & Hr & Ht).
    rewrite Hr. simpl. rewrite Ht. reflexivity.
  - assert (Hs : 10 ^ nf = 10 ^ (- (k - nf)) * 10 ^ k)
      by (rewrite <- Z.pow_add_r by lia; f_equal; lia).
    assert (Hpd : 0 < 10 ^ (- (k - nf))) by (apply Z.pow_pos_nonneg; lia).
    assert (Hn' : n = v * 10 ^ (- (k - nf))).
    { rewrite Hs in Hex. apply (Z.mul_reg_r _ _ (10 ^ k)); [lia|]. rewrite Hex. ring. }
    rewrite Hn' at 1.
    destruct (round_exact_int v (10 ^ (- (k - nf))) ltac:(lia) Hpd) as (m & e & Hr & Ht).
    rewrite Hr. simpl. rewrite Ht. reflexivity.
Qed.

Lemma decimal_overflow (n k nf : Z) :
  0 <= k -> 0 <= nf -> 2 ^ 1024 * 10 ^ nf <= n * 10 ^ k ->
  float_to_int (decimal_to_float 1 n (k - nf)) = IntOverflowError.
Proof.
  intros Hk Hnf Hle.
  assert (Hpk : 0 < 10 ^ k) by (apply Z.pow_pos_nonneg; lia).
  unfold decimal_to_float.
  destruct (Z.leb_spec 0 (k - nf)) as [Hd|Hd].
  - assert (Hs : 10 ^ k = 10 ^ (k - nf) * 10 ^ nf)
      by (rewrite <- Z.pow_add_r by lia; f_equal; lia).
    assert (Hpn : 0 < 10 ^ nf) by (apply Z.pow_pos_nonneg; lia).
    rewrite round_overflow; [reflexivity|lia|].
    rewrite Hs in Hle. nia.
  - assert (Hs : 10 ^ nf = 10 ^ (- (k - nf)) * 10 ^ k)
      by (rewrite <- Z.pow_add_r by lia; f_equal; lia).
    assert (Hpd : 0 < 10 ^ (- (k - nf))) by (apply Z.pow_pos_nonneg; lia).
    rewrite round_overflow; [reflexivity|lia|].
    rewrite Hs in Hle. nia.
Qed.

End ParseWellFormed.

Section ParseWellFormed2.
Import PyStr PyFloat.

Lemma str_app_cons (c : ascii) (a b : string) : String c a ++ b = String c (a ++ b).
Proof. reflexivity. Qed.

Lemma lower_app (a b : string) : lower (a ++ b) = lower a ++ lower b.
Proof. apply map_str_app. Qed.

Lemma head_ok_tail (suf : option (magnitude * bool)) : head_ok (exp_tail suf) = true.
Proof. destruct suf as [[[] u]|]; reflexivity. Qed.

Lemma head_ok_rest (fp : option (list Z)) (suf : option (magnitude * bool)) :
  head_ok (frac_str fp ++ exp_tail suf) = true.
Proof. destruct fp; [reflexivity|apply head_ok_tail]. Qed.

Lemma transform_wf (ip : list Z) (fp : option (list Z)) (suf : option (magnitude * bool)) :
  Forall is_digit_val ip -> Forall is_digit_val (frac_digits fp) ->
  replace_char "k" "e3" (replace_char "m" "e6" (replace_char "g" "e9"
    (lower (diff_string ip fp suf))))
  = digits_str ip ++ frac_str fp ++ exp_tail suf.
Proof.
  intros Hip Hfp. unfold diff_string.
  assert (Hg : forall d, is_digit_val d -> Ascii.eqb (Fmt.digit_char d) "g" = false)
    by (intros d Hd; apply (digit_char_facts d Hd)).
  assert (Hm : forall d, is_digit_val d -> Ascii.eqb (Fmt.digit_char d) "m" = false)
    by (intros d Hd; apply (digit_char_facts d Hd)).
  assert (Hk : forall d, is_digit_val d -> Ascii.eqb (Fmt.digit_char d) "k" = false)
    by (intros d Hd; apply (digit_char_facts d Hd)).
  rewrite !lower_app, (lower_digits ip Hip), !replace_char_app.
  rewrite (replace_digits "g" _ ip Hg Hip), (replace_digits "m" _ ip Hm Hip),
          (replace_digits "k" _ ip Hk Hip).
  f_equal. f_equal.
  - destruct fp as [f|]; [|reflexivity]. simpl in Hfp. unfold frac_str.
    change (lower (String "." (digits_str f))) with (String "." (lower (digits_str f))).
    rewrite (lower_digits f Hfp). simpl.
    rewrite (replace_digits "g" _ f Hg Hfp), (replace_digits "m" _ f Hm Hfp),
            (replace_digits "k" _ f Hk Hfp).
    reflexivity.
  - destruct suf as [[[] []]|]; reflexivity.
Qed.

Lemma no_space_wf (ip : list Z) (fp : option (list Z)) (suf : option (magnitude * bool)) :
  Forall is_digit_val ip -> Forall is_digit_val (frac_digits fp) ->
  no_space (digits_str ip ++ frac_str fp ++ exp_tail suf) = true.
Proof.
  intros Hip Hfp. rewrite !no_space_app, no_space_digits by assumption.
  destruct fp as [f|]; simpl in *.
  - rewrite no_space_digits by assumption. destruct suf as [[[] u]|]; reflexivity.
  - destruct suf as [[[] u]|]; reflexivity.
Qed.

Lemma number_wf (d0 : Z) (ip : list Z) (fp : option (list Z))
    (suf : option (magnitude * bool)) :
  Forall is_digit_val (d0 :: ip) -> Forall is_digit_val (frac_digits fp) ->
  number (digits_str (d0 :: ip) ++ frac_str fp ++ exp_tail suf) =
  Some (digits_val ((d0 :: ip) ++ frac_digits fp),
        suffix_exp suf - Z.of_nat (length (frac_digits fp))).
Proof.
  intros Hip Hfp. unfold number.
  rewrite (opt_digits_app _ _ Hip (head_ok_rest fp suf)).
  destruct fp as [f|]; simpl in Hfp.
  - unfold frac_str. rewrite str_app_cons. cbv beta iota.
    rewrite Ascii.eqb_refl, (opt_digits_app _ _ Hfp (head_ok_tail suf)).
    cbv beta iota.
    destruct suf as [[[] u]|]; simpl; f_equal; f_equal; lia.
  - simpl frac_str. destruct suf as [[[] u]|]; simpl; rewrite ?app_nil_r;
      f_equal; f_equal; lia.
Qed.

Lemma py_float_wf (d0 : Z) (ip : list Z) (fp : option (list Z))
    (suf : option (magnitude * bool)) :
  Forall is_digit_val (d0 :: ip) -> Forall is_digit_val (frac_digits fp) ->
  py_float (digits_str (d0 :: ip) ++ frac_str fp ++ exp_tail suf) =
  decimal_to_float 1 (digits_val ((d0 :: ip) ++ frac_digits fp))
                   (suffix_exp suf - Z.of_nat (length (frac_digits fp))).
Proof.
  intros Hip Hfp. unfold py_float.
  rewrite strip_no_space by (apply no_space_wf; assumption).
  pose proof Hip as Hd. inversion Hd as [|? ? Hd0 _]; subst.
  destruct (digit_char_facts d0 Hd0)
    as (Hlow & _ & _ & _ & _ & _ & _ & Hplus & Hminus & Hi & Hn).
  set (rest := digits_str ip ++ frac_str fp ++ exp_tail suf).
  assert (HS : digits_str (d0 :: ip) ++ frac_str fp ++ exp_tail suf =
               String (Fmt.digit_char d0) rest) by reflexivity.
  assert (Hl : lower (String (Fmt.digit_char d0) rest) =
               String (Fmt.digit_char d0) (lower rest))
    by (unfold lower; cbn [map_str]; now rewrite Hlow).
  rewrite HS. unfold sign. rewrite Hplus, Hminus. cbv beta iota.
  rewrite Hl. cbn [String.eqb]. rewrite Hi, Hn. cbv beta iota.
  rewrite <- HS, (number_wf d0 ip fp suf Hip Hfp). reflexivity.
Qed.

End ParseWellFormed2.

(** C4 (counterexample): the parsed magnitude is int() of a double, not
    the exact number times 10^k: "9007199254740993" (2^53 + 1, no suffix)
    parses to 9007199254740992, the nearest double; "0.99999999999999999K"
    (999.99999999999999) parses to 1000, as the number rounds up to the
    double 1000.0; and "1.0005K" (1000.5) parses to 1000, as int()
    truncates. *)
Lemma C4_magnitude_not_exact :
  parse_best_diff "9007199254740993" = IntOk 9007199254740992 /\
  parse_best_diff "0.99999999999999999K" = IntOk 1000 /\
  parse_best_diff "1.0005K" = IntOk 1000.
Proof. vm_compute. repeat split. Qed.

(** C4 (amended): for a well-formed difficulty string (digits, optionally
    "." and digits, optionally one suffix letter k/K, m/M or g/G) of exact
    value x = the number times 10^3, 10^6 or 10^9 (the number itself
    without suffix), the parsed magnitude is int() of the double nearest
    to x; it is x itself when x is an integer no larger than 2^53, and the
    call raises OverflowError when x is at least 2^1024 (x rounds to
    infinity); "1.5M", "2G", "900K" and "500" give 1500000, 2000000000,
    900000 and 500; and whether a call reports a new record depends on the
    string only through its parse. *)
Theorem C4_parse_rounds_and_decides :
  (forall (ip : list Z) (fp : option (list Z)) (suf : option (magnitude * bool)),
     ip <> [] -> Forall is_digit_val ip -> Forall is_digit_val (frac_digits fp) ->
     parse_best_diff (diff_string ip fp suf) =
     float_to_int (PyFloat.decimal_to_float 1 (PyFloat.digits_val (ip ++ frac_digits fp))
                     (suffix_exp suf - Z.of_nat (length (frac_digits fp)))))
  /\
  (forall (ip : list Z) (fp : option (list Z)) (suf : option (magnitude * bool)),
     ip <> [] -> Forall is_digit_val ip -> Forall is_digit_val (frac_digits fp) ->
     (PyFloat.digits_val (ip ++ frac_digits fp) * 10 ^ suffix_exp suf)
       mod 10 ^ Z.of_nat (length (frac_digits fp)) = 0 ->
     diff_magnitude ip fp suf <= 2 ^ 53 ->
     parse_best_diff (diff_string ip fp suf) = IntOk (diff_magnitude ip fp suf))
  /\
  (forall (ip : list Z) (fp : option (list Z)) (suf : option (magnitude * bool)),
     ip <> [] -> Forall is_digit_val ip -> Forall is_digit_val (frac_digits fp) ->
     2 ^ 1024 * 10 ^ Z.of_nat (length (frac_digits fp)) <=
       PyFloat.digits_val (ip ++ frac_digits fp) * 10 ^ suffix_exp suf ->
     parse_best_diff (diff_string ip fp suf) = IntOverflowError /\
     forall (hostname : string) (now : Z) (io : io_outcome) (st : store),
       check_and_update_best_diff (diff_string ip fp suf) hostname now io st =
       Raised (load_best_diff st))
  /\
  (parse_best_diff "1.5M" = IntOk 1500000 /\ parse_best_diff "2G" = IntOk 2000000000 /\
   parse_best_diff "900K" = IntOk 900000 /\ parse_best_diff "500" = IntOk 500)
  /\
  (forall (s1 s2 hostname : string) (now : Z) (io : io_outcome) (st : store),
     parse_best_diff s1 = parse_best_diff s2 ->
     outcome_new (check_and_update_best_diff s1 hostname now io st) =
     outcome_new (check_and_update_best_diff s2 hostname now io st)).
Proof.
  assert (Hparse : forall (ip : list Z) (fp : option (list Z)) (suf : option (magnitude * bool)),
     ip <> [] -> Forall is_digit_val ip -> Forall is_digit_val (frac_digits fp) ->
     parse_best_diff (diff_string ip fp suf) =
     float_to_int (PyFloat.decimal_to_float 1 (PyFloat.digits_val (ip ++ frac_digits fp))
                     (suffix_exp suf - Z.of_nat (length (frac_digits fp))))).
  { intros [|d0 ip] fp suf Hne Hip Hfp; [contradiction|].
    unfold parse_best_diff. rewrite (transform_wf _ _ _ Hip Hfp).
    unfold int_float. rewrite (py_float_wf d0 ip fp suf Hip Hfp). reflexivity. }
  assert (Hk : forall suf : option (magnitude * bool), 0 <= suffix_exp suf)
    by (intros [[[] u]|]; simpl; lia).
  split; [exact Hparse|]. split; [|split; [|split; [repeat split; reflexivity|]]].
  - intros ip fp suf Hne Hip Hfp Hmod Hle.
    rewrite (Hparse ip fp suf Hne Hip Hfp). unfold diff_magnitude.
    apply decimal_exact; [apply Hk|lia| |exact Hmod|exact Hle].
    apply digits_val_acc_nonneg; [lia|]. apply Forall_app. split; assumption.
  - intros ip fp suf Hne Hip Hfp Hle.
    assert (Hp : parse_best_diff (diff_string ip fp suf) = IntOverflowError).
    { rewrite (Hparse ip fp suf Hne Hip Hfp). apply decimal_overflow; [apply Hk|lia|exact Hle]. }
    split; [exact Hp|]. intros h now io st.
    rewrite check_by_parse, Hp. reflexivity.
  - intros s1 s2 h now io st Hp.
    rewrite !check_by_parse, Hp.
    destruct (parse_best_diff s2) as [n| |]; [|reflexivity|reflexivity].
    destruct (match best_diff_history (load_best_diff st) with
              | None => true | Some r => rec_value r <? n end); reflexivity.
Qed.

Lemma C4_witness :
  parse_best_diff (diff_string [1] (Some [5]) (Some (MagM, true))) =
    float_to_int (PyFloat.decimal_to_float 1 15 5) /\
  parse_best_diff (diff_string [1] (Some [5]) (Some (MagM, true))) =
    IntOk (diff_magnitude [1] (Some [5]) (Some (MagM, true))) /\
  parse_best_diff (diff_string (1 :: repeat 0 309) None None) = IntOverflowError /\
  outcome_new (check_and_update_best_diff "1.5M" "a" 0 WriteOk st_disk_1000) =
  outcome_new (check_and_update_best_diff "1500k" "a" 0 WriteOk st_disk_1000).
Proof.
  assert (H1 : Forall is_digit_val [1]) by (constructor; [unfold is_digit_val; lia|constructor]).
  assert (H5 : Forall is_digit_val (frac_digits (Some [5])))
    by (constructor; [unfold is_digit_val; lia|constructor]).
  assert (H0 : Forall is_digit_val (1 :: repeat 0 309)).
  { constructor; [unfold is_digit_val; lia|].
    apply Stdlib.Lists.List.Forall_forall. intros x Hx. apply repeat_spec in Hx. subst x.
    unfold is_digit_val; lia. }
  assert (Hnil : Forall is_digit_val (frac_digits None)) by constructor.
  split; [|split; [|split]].
  - exact (proj1 C4_parse_rounds_and_decides [1] (Some [5]) (Some (MagM, true))
             ltac:(discriminate) H1 H5).
  - apply (proj1 (proj2 C4_parse_rounds_and_decides)); [discriminate|exact H1|exact H5| |].
    + vm_compute. reflexivity.
    + apply Z.leb_le. vm_compute. reflexivity.
  - apply (proj1 (proj2 (proj2 C4_parse_rounds_and_decides)) (1 :: repeat 0 309) None None);
      [discriminate|exact H0|exact Hnil|].
    apply Z.leb_le. vm_compute. reflexivity.
  - apply (proj2 (proj2 (proj2 (proj2 C4_parse_rounds_and_decides)))). reflexivity.
Defined.

(** ** C5 *)

Section GetValue.

Lemma fold_step_none (keys : list string) : fold_left step_into keys None = None.
Proof. induction keys as [|k ks IH]; simpl; [reflexivity|exact IH]. Qed.

Lemma descend_fold (current : json) (keys : list string) :
  descend current keys = fold_left step_into keys (Some current).
Proof.
  revert current. induction keys as [|k ks IH]; intros current; [reflexivity|].
  simpl. destruct current as [| | | | | |kv]; try (symmetry; apply fold_step_none).
  destruct (dict_lookup k kv) as [v|]; [apply IH|symmetry; apply fold_step_none].
Qed.

Lemma first_present_find (data : dict) (keys : list string) :
  first_present data keys = resolve_alternatives_spec data keys.
Proof.
  unfold resolve_alternatives_spec.
  induction keys as [|k ks IH]; simpl; [reflexivity|].
  unfold has_key. destruct (dict_lookup k data) as [v|] eqn:E; simpl; [now rewrite E|exact IH].
Qed.

End GetValue.

(** C5: get_value follows the two-mode rule: with more than one candidate
    and a container under the first, the list is a path (None as soon as a
    step is missing or not a container); otherwise the first candidate
    present at top level wins; no candidates give None.  The three cases
    of the spec evaluate as stated. *)
Theorem C5_get_value_two_mode_rule :
  (forall (data : dict) (keys : list string),
     get_value data keys = resolve_candidates_spec data keys)
  /\ get_value [("stratum", JObj [("poolMode", JStr "solo")])] ["stratum"; "poolMode"]
     = Some (JStr "solo")
  /\ get_value [("power", JFloat 125 (-1))] ["voltage"; "power"] = Some (JFloat 125 (-1))
  /\ get_value [] [] = None.
Proof.
  split; [|repeat split].
  intros data [|k0 ks]; [reflexivity|].
  unfold get_value, resolve_candidates_spec, is_dict.
  replace ((1 <? length (k0 :: ks))%nat) with ((2 <=? length (k0 :: ks))%nat)
    by (simpl; destruct ks; reflexivity).
  destruct (_ && _); [apply descend_fold|apply first_present_find].
Qed.

(** ** C6 and C7 *)

Section Unify.

Lemma nodupb_NoDup (l : list string) : nodupb l = true -> List.NoDup l.
Proof.
  induction l as [|x r IH]; simpl; intros H; [constructor|].
  apply andb_prop in H as [H1 H2]. constructor; [|exact (IH H2)].
  intros Hin. apply negb_true_iff in H1.
  assert (existsb (String.eqb x) r = true) as Hc
    by (apply existsb_exists; exists x; split; [exact Hin|apply String.eqb_refl]).
  congruence.
Qed.

Lemma dict_lookup_in (l : dict) (k : string) (v : json) :
  List.NoDup (map fst l) -> In (k, v) l -> dict_lookup k l = Some v.
Proof.
  induction l as [|[k' v'] r IH]; simpl; [tauto|].
  intros Hnd Hin. inversion Hnd as [|? ? Hnot Hnd']; subst.
  destruct (String.eqb_spec k k') as [->|Hne].
  - destruct Hin as [[= ->]|Hin]; [reflexivity|].
    exfalso. apply Hnot. apply (in_map fst) in Hin. exact Hin.
  - destruct Hin as [[= -> ->]|Hin]; [congruence|]. exact (IH Hnd' Hin).
Qed.

Lemma canonical_names_indep (hostname : string) :
  map (fun '(name, _, _) => name) (canonical_fields hostname) = canonical_names.
Proof. reflexivity. Qed.

Lemma canonical_names_nodup : List.NoDup canonical_names.
Proof. apply nodupb_NoDup. vm_compute. reflexivity. Qed.

Lemma unify_fields (data : dict) (hostname : string) :
  map fst (map (fun '(name, keys, default) => (name, py_or (get_value data keys) default))
              (canonical_fields hostname)) = canonical_names.
Proof.
  rewrite map_map, <- (canonical_names_indep hostname).
  apply map_ext. intros [[n k] d]. reflexivity.
Qed.

Lemma unify_lookup (data : dict) (hostname name : string) (keys : list string)
    (default : json) :
  has_key "error" data = false -> In (name, keys, default) (canonical_fields hostname) ->
  field_value (unify_status data hostname) name = Some (py_or (get_value data keys) default).
Proof.
  intros Herr Hin. unfold unify_status. rewrite Herr. unfold field_value.
  cbv iota. apply dict_lookup_in.
  - rewrite unify_fields. exact canonical_names_nodup.
  - apply (in_map (fun '(name, keys, default) =>
                     (name, py_or (get_value data keys) default)) _ _ Hin).
Qed.

End Unify.

(** C6 (counterexample): a payload without an error marker whose "power"
    is a string gets that string as its canonical "power", while the
    documented default of the field is the float 0.0. *)
Lemma C6_field_types_not_enforced :
  ~ (forall (data : dict) (hostname : string),
       has_key "error" data = false -> fields_typed (unify_status data hostname) hostname).
Proof.
  intros H. specialize (H [("power", JStr "abc")] "bitaxe-a" eq_refl).
  unfold fields_typed, unify_status in H. simpl in H.
  apply Forall_forall with (x := ("power", ["power"], f00)) in H;
    [|do 4 right; left; reflexivity].
  destruct H as [v [Hl Hk]]. vm_compute in Hl. injection Hl as <-.
  vm_compute in Hk. discriminate.
Qed.

(** C6 (amended): a payload carrying an "error" key is returned unchanged;
    any other payload (the empty one included) gives an object whose keys
    are exactly the canonical field names, each present once, and each
    field holds either its default or the value its candidates resolved
    to, whatever the JSON type of that value. *)
Theorem C6_unify_status_complete (data : dict) (hostname : string) :
  (has_key "error" data = true -> unify_status data hostname = JObj data) /\
  (has_key "error" data = false ->
   exists l, unify_status data hostname = JObj l /\
     map fst l = canonical_names /\ List.NoDup (map fst l) /\
     Forall (fun '(name, keys, default) =>
               exists v, dict_lookup name l = Some v /\
                         (v = default \/ get_value data keys = Some v))
            (canonical_fields hostname)).
Proof.
  split; intros Herr; unfold unify_status; rewrite Herr; [reflexivity|].
  eexists. split; [reflexivity|].
  rewrite unify_fields. split; [reflexivity|]. split; [exact canonical_names_nodup|].
  apply Stdlib.Lists.List.Forall_forall. intros [[name keys] default] Hin.
  exists (py_or (get_value data keys) default). split.
  - apply dict_lookup_in.
    + rewrite unify_fields. exact canonical_names_nodup.
    + apply (in_map (fun '(name, keys, default) =>
                       (name, py_or (get_value data keys) default)) _ _ Hin).
  - unfold py_or. destruct (get_value data keys) as [v|]; [|left; reflexivity].
    destruct (truthy v); [right; reflexivity|left; reflexivity].
Qed.

Lemma C6_witness :
  unify_status [("error", JStr "timeout")] "bitaxe-a" = JObj [("error", JStr "timeout")] /\
  (exists l, unify_status [] "bitaxe-a" = JObj l /\
     map fst l = canonical_names /\ List.NoDup (map fst l) /\
     Forall (fun '(name, keys, default) =>
               exists v, dict_lookup name l = Some v /\
                         (v = default \/ get_value [] keys = Some v))
            (canonical_fields "bitaxe-a")).
Proof.
  split.
  - apply (proj1 (C6_unify_status_complete [("error", JStr "timeout")] "bitaxe-a")).
    reflexivity.
  - apply (proj2 (C6_unify_status_complete [] "bitaxe-a")). reflexivity.
Defined.

(** C7 (counterexample): "deviceID" is present in the payload with the
    empty string, yet the canonical "deviceID" is the default "N/A". *)
Lemma C7_falsy_value_replaced_by_default :
  ~ (forall (data : dict) (hostname name : string) (keys : list string)
            (default v : json),
       In (name, keys, default) (canonical_fields hostname) ->
       get_value data keys = Some v ->
       field_value (unify_status data hostname) name = Some v).
Proof.
  intros H.
  specialize (H [("deviceID", JStr "")] "bitaxe-a" "deviceID" ["deviceID"] na (JStr "")
                (or_intror (or_introl eq_refl)) eq_refl).
  vm_compute in H. discriminate.
Qed.

(** C7 (amended): a field takes the value its candidates resolve to when
    that value is truthy; when nothing resolves, or the resolved value is
    falsy (null, false, 0, 0.0, "", [] or {}), it takes its default. *)
Theorem C7_default_when_unresolved_or_falsy (data : dict) (hostname name : string)
    (keys : list string) (default : json) :
  has_key "error" data = false ->
  In (name, keys, default) (canonical_fields hostname) ->
  field_value (unify_status data hostname) name =
  Some (match get_value data keys with
        | Some v => if truthy v then v else default
        | None => default
        end).
Proof. apply unify_lookup. Qed.

Lemma C7_witness :
  field_value (unify_status [("deviceID", JStr ""); ("power", JFloat 125 (-1))] "bitaxe-a")
    "deviceID" = Some na /\
  field_value (unify_status [("deviceID", JStr ""); ("power", JFloat 125 (-1))] "bitaxe-a")
    "power" = Some (JFloat 125 (-1)).
Proof.
  split.
  - exact (C7_default_when_unresolved_or_falsy
             [("deviceID", JStr ""); ("power", JFloat 125 (-1))]
             "bitaxe-a" "deviceID" ["deviceID"] na
             eq_refl (or_intror (or_introl eq_refl))).
  - exact (C7_default_when_unresolved_or_falsy
             [("deviceID", JStr ""); ("power", JFloat 125 (-1))]
             "bitaxe-a" "power" ["power"] f00
             eq_refl (or_intror (or_intror (or_intror (or_intror (or_introl eq_refl)))))).
Defined.

(** ** C8 and C9 *)

Section Stale.
Context (now_check : string -> Z).

Lemma stale_in (devices : list (string * device_config)) (cache : gmap string cache_entry)
    (h ip : string) :
  In (h, ip) (stale_devices devices cache now_check) <->
  exists cfg, In (h, cfg) devices /\ ip_truthy cfg = Some ip /\ fresh cache now_check h = false.
Proof.
  unfold fresh.
  induction devices as [|[h0 cfg0] r IH]; simpl.
  - split; [tauto|]. intros (cfg & [] & _).
  - destruct (ip_truthy cfg0) as [ip0|] eqn:Eip.
    + destruct (cache !! h0) as [e|] eqn:Ec.
      * destruct (now_check h0 - ce_timestamp e <? CACHE_TTL) eqn:Et.
        -- rewrite IH. split.
           ++ intros (cfg & Hin & Hc & Hf). exists cfg. auto.
           ++ intros (cfg & [[= <- <-]|Hin] & Hc & Hf); [|eauto].
              rewrite Ec in Hf. congruence.
        -- simpl. rewrite IH. split.
           ++ intros [[= <- <-]|(cfg & Hin & Hc & Hf)]; [exists cfg0; rewrite Ec; auto|eauto].
           ++ intros (cfg & [[= <- <-]|Hin] & Hc & Hf); [left; congruence|right; eauto].
      * simpl. rewrite IH. split.
        -- intros [[= <- <-]|(cfg & Hin & Hc & Hf)]; [exists cfg0; rewrite Ec; auto|eauto].
        -- intros (cfg & [[= <- <-]|Hin] & Hc & Hf); [left; congruence|right; eauto].
    + rewrite IH. split.
      * intros (cfg & Hin & Hc & Hf). eauto.
      * intros (cfg & [[= <- <-]|Hin] & Hc & Hf); [congruence|eauto].
Qed.

Lemma stale_nodup (devices : list (string * device_config)) (cache : gmap string cache_entry) :
  List.NoDup (map fst devices) ->
  List.NoDup (map fst (stale_devices devices cache now_check)).
Proof.
  induction devices as [|[h0 cfg0] r IH]; simpl; intros Hnd; [constructor|].
  inversion Hnd as [|? ? Hnot Hnd']; subst.
  assert (Hfresh : ~ In h0 (map fst (stale_devices r cache now_check))).
  { intros Hin. apply in_map_iff in Hin as [[h ip] [Heq Hin]]. simpl in Heq; subst.
    apply stale_in in Hin as (cfg & Hin & _). apply Hnot.
    apply (in_map fst) in Hin. exact Hin. }
  destruct (ip_truthy cfg0); [|auto].
  destruct (cache !! h0) as [e|];
    [destruct (now_check h0 - ce_timestamp e <? CACHE_TTL)|]; simpl; auto;
    constructor; auto.
Qed.

End Stale.

Section Write.
Context (net : string -> fetch_outcome) (now_write : string -> Z).

Lemma write_results_cons (h0 ip0 : string) (r : list (string * string))
    (cache : gmap string cache_entry) :
  write_results ((h0, ip0) :: r) net now_write cache =
  write_results r net now_write (<[h0 := new_entry net now_write h0 ip0]> cache).
Proof. reflexivity. Qed.

Lemma write_results_other (stale : list (string * string)) (cache : gmap string cache_entry)
    (h : string) :
  ~ In h (map fst stale) -> write_results stale net now_write cache !! h = cache !! h.
Proof.
  revert cache.
  induction stale as [|[h0 ip0] r IH]; intros cache Hnot; [reflexivity|].
  simpl in Hnot. rewrite write_results_cons, IH by tauto.
  apply lookup_insert_ne. intros ->. tauto.
Qed.

Lemma write_results_in (stale : list (string * string)) (cache : gmap string cache_entry)
    (h ip : string) :
  List.NoDup (map fst stale) -> In (h, ip) stale ->
  write_results stale net now_write cache !! h = Some (new_entry net now_write h ip).
Proof.
  revert cache.
  induction stale as [|[h0 ip0] r IH]; intros cache Hnd Hin; [destruct Hin|].
  simpl in Hnd. inversion Hnd as [|? ? Hnot Hnd']; subst.
  rewrite write_results_cons.
  destruct Hin as [[= -> ->]|Hin].
  - rewrite write_results_other by exact Hnot. apply lookup_insert_eq.
  - apply IH; assumption.
Qed.

End Write.

Lemma cached_view_lookup (devices : list (string * device_config))
    (cache : gmap string cache_entry) (h : string) :
  cached_view devices cache !! h =
  if in_dec string_dec h (map fst devices) then ce_data <$> cache !! h else None.
Proof.
  induction devices as [|[h0 cfg0] r IH]; simpl; [apply lookup_empty|].
  destruct (string_dec h0 h) as [Heq|Hne].
  - subst h0. destruct (cache !! h) as [e|] eqn:Ec.
    + rewrite lookup_insert_eq. reflexivity.
    + rewrite IH. destruct (in_dec _ _ _); reflexivity.
  - destruct (cache !! h0) as [e|]; [rewrite lookup_insert_ne by exact Hne|];
      rewrite IH; destruct (in_dec _ _ _) as [Hi|Hi]; simpl; try reflexivity;
      destruct Hi; tauto.
Qed.

Section CacheRule.

Lemma nodup_fst_unique {B : Type} (l : list (string * B)) (k : string) (x y : B) :
  List.NoDup (map fst l) -> In (k, x) l -> In (k, y) l -> x = y.
Proof.
  induction l as [|[k0 v0] r IH]; simpl; [tauto|].
  intros Hnd Hx Hy. inversion Hnd as [|? ? Hnot Hnd']; subst.
  destruct Hx as [Ex|Hx], Hy as [Ey|Hy].
  - congruence.
  - injection Ex as -> ->. exfalso. apply Hnot. apply (in_map fst) in Hy. exact Hy.
  - injection Ey as -> ->. exfalso. apply Hnot. apply (in_map fst) in Hx. exact Hx.
  - auto.
Qed.

Lemma stale_membership (now_check : string -> Z) (devices : list (string * device_config))
    (cache : gmap string cache_entry) (h : string) (cfg : device_config) :
  List.NoDup (map fst devices) -> In (h, cfg) devices ->
  (forall ip, ip_truthy cfg = Some ip -> fresh cache now_check h = false ->
     In (h, ip) (stale_devices devices cache now_check)) /\
  ((ip_truthy cfg = None \/ fresh cache now_check h = true) ->
     ~ In h (map fst (stale_devices devices cache now_check))).
Proof.
  intros Hnd Hin. split.
  - intros ip Hip Hf. apply (proj2 (stale_in now_check devices cache h ip)). exists cfg. auto.
  - intros Hc Hs. apply in_map_iff in Hs as [[h' ip'] [Heq Hs]]. simpl in Heq; subst h'.
    apply stale_in in Hs as (cfg' & Hin' & Hip' & Hf').
    rewrite (nodup_fst_unique _ _ _ _ Hnd Hin Hin') in Hc. destruct Hc; congruence.
Qed.

Lemma get_all_cache_rule (devices : list (string * device_config))
    (cache : gmap string cache_entry) (now_check now_write : string -> Z)
    (net : string -> fetch_outcome) (h : string) (cfg : device_config) :
  List.NoDup (map fst devices) -> In (h, cfg) devices ->
  match get_all_device_statuses devices cache now_check now_write net with
  | (cache', result, fetched) =>
      match ip_truthy cfg with
      | Some ip =>
          if fresh cache now_check h then
            fetch_count fetched h = 0%nat /\ cache' !! h = cache !! h /\
            result !! h = ce_data <$> cache !! h
          else
            fetch_count fetched h = 1%nat /\
            cache' !! h = Some {| ce_data := unify_status (fetch_status (net ip)) h;
                                  ce_timestamp := now_write h |} /\
            result !! h = Some (unify_status (fetch_status (net ip)) h)
      | None =>
          fetch_count fetched h = 0%nat /\ cache' !! h = cache !! h /\
          result !! h = ce_data <$> cache !! h
      end
  end.
Proof.
  intros Hnd Hin. unfold get_all_device_statuses, fetch_count.
  pose proof (stale_nodup now_check devices cache Hnd) as Hsnd.
  destruct (stale_membership now_check devices cache h cfg Hnd Hin) as [Hyes Hno].
  assert (Hdev : In h (map fst devices)) by (apply (in_map fst) in Hin; exact Hin).
  assert (Hout : ~ In h (map fst (stale_devices devices cache now_check)) ->
            fetch_count (map fst (stale_devices devices cache now_check)) h = 0%nat /\
            write_results (stale_devices devices cache now_check) net now_write cache !! h
              = cache !! h /\
            cached_view devices
              (write_results (stale_devices devices cache now_check) net now_write cache) !! h
              = ce_data <$> cache !! h).
  { intros Hn. unfold fetch_count. rewrite (write_results_other net now_write _ _ _ Hn).
    split; [apply count_occ_not_In; exact Hn|split; [reflexivity|]].
    rewrite cached_view_lookup, (write_results_other net now_write _ _ _ Hn).
    destruct (in_dec _ _ _); [reflexivity|contradiction]. }
  destruct (ip_truthy cfg) as [ip|] eqn:Eip.
  - destruct (fresh cache now_check h) eqn:Ef.
    + apply Hout, Hno. right; reflexivity.
    + specialize (Hyes ip eq_refl eq_refl).
      assert (Hw := write_results_in net now_write _ cache _ _ Hsnd Hyes).
      split; [|split].
      * apply NoDup_count_occ'; [exact Hsnd|].
        apply (in_map fst) in Hyes. exact Hyes.
      * exact Hw.
      * rewrite cached_view_lookup, Hw. destruct (in_dec _ _ _); [reflexivity|contradiction].
  - apply Hout, Hno. left; reflexivity.
Qed.

End CacheRule.

(** C8 (counterexample): a configured device without an "ip" and without
    a cache entry gets no fetch at all; a device without an "ip" whose
    entry is far older than the TTL is served that stale entry. *)
Lemma C8_device_without_ip_not_fetched :
  (get_all_device_statuses [("bitaxe-a", {| dev_ip := None |})] ∅
     (fun _ => 0) (fun _ => 0) (fun _ => FetchTimeout)).2 = [] /\
  (get_all_device_statuses [("bitaxe-a", {| dev_ip := Some "" |})]
     {[ "bitaxe-a" := {| ce_data := JObj []; ce_timestamp := 0 |} ]}
     (fun _ => 60000000) (fun _ => 60000000) (fun _ => FetchTimeout)).1.2 !! "bitaxe-a"
  = Some (JObj []).
Proof. split; reflexivity. Qed.

(** C8 (amended): for a device of the configuration (names distinct) with
    a non-empty "ip": an entry younger than the 5 s TTL is returned with
    no fetch; otherwise exactly one fetch is issued and its normalized
    result, stamped with the write-time clock, replaces the entry and is
    returned.  A device without a non-empty "ip" is never fetched, its
    entry (if any) is left as is and returned whatever its age. *)
Theorem C8_get_all_cache_rule (devices : list (string * device_config))
    (cache : gmap string cache_entry) (now_check now_write : string -> Z)
    (net : string -> fetch_outcome) (h : string) (cfg : device_config) :
  List.NoDup (map fst devices) -> In (h, cfg) devices ->
  match get_all_device_statuses devices cache now_check now_write net with
  | (cache', result, fetched) =>
      match ip_truthy cfg with
      | Some ip =>
          if fresh cache now_check h then
            fetch_count fetched h = 0%nat /\ cache' !! h = cache !! h /\
            result !! h = ce_data <$> cache !! h
          else
            fetch_count fetched h = 1%nat /\
            cache' !! h = Some {| ce_data := unify_status (fetch_status (net ip)) h;
                                  ce_timestamp := now_write h |} /\
            result !! h = Some (unify_status (fetch_status (net ip)) h)
      | None =>
          fetch_count fetched h = 0%nat /\ cache' !! h = cache !! h /\
          result !! h = ce_data <$> cache !! h
      end
  end.
Proof.
  exact (get_all_cache_rule devices cache now_check now_write net h cfg).
Qed.

Lemma C8_witness :
  match get_all_device_statuses [("bitaxe-a", {| dev_ip := Some "10.0.0.2" |})] ∅
          (fun _ => 0) (fun _ => 1) (fun _ => FetchTimeout) with
  | (cache', result, fetched) =>
      fetch_count fetched "bitaxe-a" = 1%nat /\
      cache' !! "bitaxe-a" =
        Some {| ce_data := unify_status (fetch_status FetchTimeout) "bitaxe-a";
                ce_timestamp := 1 |} /\
      result !! "bitaxe-a" = Some (unify_status (fetch_status FetchTimeout) "bitaxe-a")
  end.
Proof.
  refine (C8_get_all_cache_rule [("bitaxe-a", {| dev_ip := Some "10.0.0.2" |})] ∅
           (fun _ => 0) (fun _ => 1) (fun _ => FetchTimeout) "bitaxe-a"
           {| dev_ip := Some "10.0.0.2" |} _ _).
  - simpl. constructor; [simpl; tauto|constructor].
  - simpl. left. reflexivity.
Defined.

(** C9 (counterexample): fetch_status returns a plain {"error": str(e)}
    dict, so no function of its result tells a timeout from a client
    error whose message is "timeout": the three failure kinds are not
    recoverable from what the caller receives. *)
Lemma C9_fetch_error_kinds_indistinguishable :
  ~ exists classify : dict -> fetch_error_kind,
      classify (fetch_status FetchTimeout) = KTimeout /\
      forall msg, classify (fetch_status (FetchClientError msg)) = KClientError /\
                  classify (fetch_status (FetchUnexpected msg)) = KUnexpected.
Proof.
  intros (classify & Ht & Hc).
  destruct (Hc "timeout") as [Hc' _].
  simpl in Ht, Hc'. congruence.
Qed.

(** C9 (amended): fetch_status never raises; a timeout is returned as
    {"error": "timeout"} and any other failure as {"error": str(e)}, which
    unify_status passes through unchanged.  In one get_all_device_statuses
    call, the status returned for a configured device (names distinct)
    depends on the network only through the request to its own "ip": it
    is the same whatever the other requests return, failures included.
    It is present when the device has a non-empty "ip" or a cache entry. *)
Theorem C9_fetch_failures_contained (devices : list (string * device_config))
    (cache : gmap string cache_entry) (now_check now_write : string -> Z)
    (net net' : string -> fetch_outcome) (h : string) (cfg : device_config) :
  List.NoDup (map fst devices) -> In (h, cfg) devices ->
  (forall ip, ip_truthy cfg = Some ip -> net' ip = net ip) ->
  (fetch_status FetchTimeout = [("error", JStr "timeout")] /\
   (forall msg, fetch_status (FetchClientError msg) = [("error", JStr msg)] /\
                fetch_status (FetchUnexpected msg) = [("error", JStr msg)]) /\
   (forall o hostname, (forall body, o <> FetchBody body) ->
      unify_status (fetch_status o) hostname = JObj (fetch_status o))) /\
  (get_all_device_statuses devices cache now_check now_write net').1.2 !! h =
  (get_all_device_statuses devices cache now_check now_write net).1.2 !! h /\
  ((ip_truthy cfg <> None \/ h ∈ dom cache) ->
   is_Some ((get_all_device_statuses devices cache now_check now_write net).1.2 !! h)).
Proof.
  intros Hnd Hin Hagree. split; [split; [reflexivity|split]|].
  { intros msg. split; reflexivity. }
  { intros o hostname Hno. destruct o as [body| |msg|msg];
      [destruct (Hno body eq_refl)|reflexivity..]. }
  pose proof (get_all_cache_rule devices cache now_check now_write net h cfg Hnd Hin) as H1.
  pose proof (get_all_cache_rule devices cache now_check now_write net' h cfg Hnd Hin) as H2.
  destruct (get_all_device_statuses devices cache now_check now_write net)
    as [[c1 r1] f1].
  destruct (get_all_device_statuses devices cache now_check now_write net')
    as [[c2 r2] f2].
  simpl.
  destruct (ip_truthy cfg) as [ip|] eqn:Eip.
  - rewrite (Hagree ip eq_refl) in H2.
    destruct (fresh cache now_check h) eqn:Ef.
    + destruct H1 as (_ & _ & ->), H2 as (_ & _ & ->). split; [reflexivity|].
      intros _. unfold fresh in Ef. destruct (cache !! h); [eexists; reflexivity|discriminate].
    + destruct H1 as (_ & _ & ->), H2 as (_ & _ & ->). split; [reflexivity|].
      intros _. eexists; reflexivity.
  - destruct H1 as (_ & _ & ->), H2 as (_ & _ & ->). split; [reflexivity|].
    intros [Hc|Hd]; [congruence|].
    apply elem_of_dom in Hd as [e ->]. eexists; reflexivity.
Qed.

Lemma C9_witness :
  (get_all_device_statuses
     [("bitaxe-a", {| dev_ip := Some "10.0.0.2" |}); ("bitaxe-b", {| dev_ip := Some "10.0.0.3" |})]
     ∅ (fun _ => 0) (fun _ => 1)
     (fun ip => if String.eqb ip "10.0.0.3" then FetchTimeout else FetchBody [])).1.2
    !! "bitaxe-a" =
  (get_all_device_statuses
     [("bitaxe-a", {| dev_ip := Some "10.0.0.2" |}); ("bitaxe-b", {| dev_ip := Some "10.0.0.3" |})]
     ∅ (fun _ => 0) (fun _ => 1) (fun _ => FetchBody [])).1.2
    !! "bitaxe-a".
Proof.
  refine (proj1 (proj2 (C9_fetch_failures_contained
     [("bitaxe-a", {| dev_ip := Some "10.0.0.2" |}); ("bitaxe-b", {| dev_ip := Some "10.0.0.3" |})]
     ∅ (fun _ => 0) (fun _ => 1) (fun _ => FetchBody [])
     (fun ip => if String.eqb ip "10.0.0.3" then FetchTimeout else FetchBody [])
     "bitaxe-a" {| dev_ip := Some "10.0.0.2" |} _ _ _))).
  - simpl. constructor; [simpl; intuition discriminate|constructor; [simpl; tauto|constructor]].
  - simpl. left. reflexivity.
  - intros ip Hip. vm_compute in Hip. injection Hip as <-. reflexivity.
Defined.

(* ===================================================================== *)
(** * Further properties of device_status.py                              *)
(* ===================================================================== *)

Section CacheEvolution.

Lemma dict_lookup_notin (l : dict) (k : string) :
  ~ In k (map fst l) -> dict_lookup k l = None.
Proof.
  induction l as [|[k' v'] r IH]; simpl; [reflexivity|].
  intros Hn. destruct (String.eqb_spec k k') as [->|_]; [tauto|]. apply IH. tauto.
Qed.

Lemma fetched_in_stale (devices : list (string * device_config))
    (cache : gmap string cache_entry) (now_check : string -> Z) (h : string) :
  In h (map fst (stale_devices devices cache now_check)) ->
  exists cfg ip, In (h, cfg) devices /\ ip_truthy cfg = Some ip /\
                 In (h, ip) (stale_devices devices cache now_check).
Proof.
  intros Hin. apply in_map_iff in Hin as [[h' ip] [Heq Hin]]. simpl in Heq; subst h'.
  pose proof Hin as Hin'.
  apply stale_in in Hin as (cfg & Hd & Hip & _). exists cfg, ip. auto.
Qed.

End CacheEvolution.

(** get_all_device_statuses only writes the cache entries of the devices it
    fetches, each with the normalized result of the request to that
    device's own ip; every other entry, including those of hostnames no
    longer configured, is left as it was.  The returned map holds exactly
    the configured hostnames that have a cache entry after the writes. *)
Theorem get_all_cache_update (devices : list (string * device_config))
    (cache : gmap string cache_entry) (now_check now_write : string -> Z)
    (net : string -> fetch_outcome) (h : string) :
  List.NoDup (map fst devices) ->
  match get_all_device_statuses devices cache now_check now_write net with
  | (cache', result, fetched) =>
      (In h fetched ->
         exists cfg ip, In (h, cfg) devices /\ ip_truthy cfg = Some ip /\
           cache' !! h = Some {| ce_data := unify_status (fetch_status (net ip)) h;
                                 ce_timestamp := now_write h |}) /\
      (~ In h fetched -> cache' !! h = cache !! h) /\
      result !! h =
        (if in_dec string_dec h (map fst devices) then ce_data <$> cache' !! h else None)
  end.
Proof.
  intros Hnd. unfold get_all_device_statuses. split; [|split].
  - intros Hin. destruct (fetched_in_stale _ _ _ _ Hin) as (cfg & ip & Hd & Hip & Hs).
    exists cfg, ip. split; [exact Hd|split; [exact Hip|]].
    apply write_results_in; [apply stale_nodup; exact Hnd|exact Hs].
  - intros Hn. apply write_results_other. exact Hn.
  - apply cached_view_lookup.
Qed.

Lemma get_all_cache_update_witness :
  match get_all_device_statuses [("bitaxe-a", {| dev_ip := Some "10.0.0.2" |})]
          {[ "old" := {| ce_data := JObj []; ce_timestamp := 0 |} ]}
          (fun _ => 0) (fun _ => 1) (fun _ => FetchTimeout) with
  | (cache', result, fetched) =>
      (In "old" fetched ->
         exists cfg ip, In ("old", cfg) [("bitaxe-a", {| dev_ip := Some "10.0.0.2" |})] /\
           ip_truthy cfg = Some ip /\
           cache' !! "old" = Some {| ce_data := unify_status (fetch_status FetchTimeout) "old";
                                     ce_timestamp := 1 |}) /\
      (~ In "old" fetched ->
         cache' !! "old" = ({[ "old" := {| ce_data := JObj []; ce_timestamp := 0 |} ]}
                            : gmap string cache_entry) !! "old") /\
      result !! "old" =
        (if in_dec string_dec "old" (map fst [("bitaxe-a", {| dev_ip := Some "10.0.0.2" |})])
         then ce_data <$> cache' !! "old" else None)
  end.
Proof.
  refine (get_all_cache_update [("bitaxe-a", {| dev_ip := Some "10.0.0.2" |})]
            {[ "old" := {| ce_data := JObj []; ce_timestamp := 0 |} ]}
            (fun _ => 0) (fun _ => 1) (fun _ => FetchTimeout) "old" _).
  simpl. constructor; [simpl; tauto|constructor].
Defined.

(** A device fetched by one get_all_device_statuses call is not fetched
    again by a next call made less than CACHE_TTL after that call stored
    its result; the next call returns the same status for it. *)
Theorem get_all_recall_within_ttl (devices : list (string * device_config))
    (cache : gmap string cache_entry) (nc1 nw1 nc2 nw2 : string -> Z)
    (net1 net2 : string -> fetch_outcome) (h : string) (cfg : device_config) :
  List.NoDup (map fst devices) -> In (h, cfg) devices ->
  match get_all_device_statuses devices cache nc1 nw1 net1 with
  | (cache1, result1, fetched1) =>
      In h fetched1 -> nc2 h - nw1 h < CACHE_TTL ->
      match get_all_device_statuses devices cache1 nc2 nw2 net2 with
      | (cache2, result2, fetched2) =>
          fetch_count fetched2 h = 0%nat /\ result2 !! h = result1 !! h
      end
  end.
Proof.
  intros Hnd Hin.
  pose proof (get_all_cache_rule devices cache nc1 nw1 net1 h cfg Hnd Hin) as H1.
  destruct (get_all_device_statuses devices cache nc1 nw1 net1) as [[c1 r1] f1].
  intros Hf Httl.
  assert (Hc : fetch_count f1 h <> 0%nat).
  { unfold fetch_count. intros H0. apply (count_occ_not_In string_dec f1 h) in H0. tauto. }
  pose proof (get_all_cache_rule devices c1 nc2 nw2 net2 h cfg Hnd Hin) as H2.
  destruct (get_all_device_statuses devices c1 nc2 nw2 net2) as [[c2 r2] f2].
  destruct (ip_truthy cfg) as [ip|]; [|destruct H1 as [H1 _]; tauto].
  destruct (fresh cache nc1 h); [destruct H1 as [H1 _]; tauto|].
  destruct H1 as (_ & Hc1 & Hr1).
  assert (Hfr : fresh c1 nc2 h = true).
  { unfold fresh. rewrite Hc1. simpl. apply Z.ltb_lt. exact Httl. }
  rewrite Hfr in H2. destruct H2 as (Hf2 & _ & Hr2).
  split; [exact Hf2|]. rewrite Hr2, Hr1, Hc1. reflexivity.
Qed.

Lemma get_all_recall_within_ttl_witness :
  match get_all_device_statuses [("bitaxe-a", {| dev_ip := Some "10.0.0.2" |})] ∅
          (fun _ => 0) (fun _ => 1) (fun _ => FetchTimeout) with
  | (cache1, result1, fetched1) =>
      In "bitaxe-a" fetched1 -> 2 - 1 < CACHE_TTL ->
      match get_all_device_statuses [("bitaxe-a", {| dev_ip := Some "10.0.0.2" |})] cache1
              (fun _ => 2) (fun _ => 3) (fun _ => FetchBody []) with
      | (cache2, result2, fetched2) =>
          fetch_count fetched2 "bitaxe-a" = 0%nat /\ result2 !! "bitaxe-a" = result1 !! "bitaxe-a"
      end
  end.
Proof.
  refine (get_all_recall_within_ttl [("bitaxe-a", {| dev_ip := Some "10.0.0.2" |})] ∅
            (fun _ => 0) (fun _ => 1) (fun _ => 2) (fun _ => 3)
            (fun _ => FetchTimeout) (fun _ => FetchBody []) "bitaxe-a"
            {| dev_ip := Some "10.0.0.2" |} _ _).
  - simpl. constructor; [simpl; tauto|constructor].
  - simpl. left. reflexivity.
Defined.

(** The normalized status has an "error" key exactly when the raw payload
    has one, with the same value: no canonical field is named "error". *)
Theorem unify_status_error_key (data : dict) (hostname : string) :
  field_value (unify_status data hostname) "error" = dict_lookup "error" data.
Proof.
  unfold unify_status, has_key.
  destruct (dict_lookup "error" data) as [v|] eqn:E; unfold field_value; cbv iota;
    [exact E|].
  apply dict_lookup_notin.
  rewrite unify_fields. vm_compute. intuition discriminate.
Qed.

(* ===================================================================== *)
(** * Properties of the embed text helpers of status_overview.py          *)
(* ===================================================================== *)

Section Chunks.

Lemma firstn_add_skip {A : Type} (a b : nat) (l : list A) :
  firstn (a + b) l = (firstn a l ++ firstn b (skipn a l))%list.
Proof.
  revert l. induction a as [|a IH]; intros l; [reflexivity|].
  destruct l as [|x l]; simpl; [rewrite firstn_nil; reflexivity|].
  rewrite IH. reflexivity.
Qed.

Lemma py_slice_nonneg {A : Type} (s : list A) (i j : Z) :
  0 <= i <= j -> py_slice s i j = firstn (Z.to_nat (j - i)) (skipn (Z.to_nat i) s).
Proof.
  intros [Hi Hij]. unfold py_slice, slice_index.
  destruct (Z.ltb_spec i 0) as [|_]; [lia|].
  destruct (Z.ltb_spec j 0) as [|_]; [lia|].
  set (L := Z.of_nat (length s)).
  destruct (Z.le_gt_cases i L) as [HiL|HiL].
  - rewrite (Z.min_l i L HiL).
    destruct (Z.le_gt_cases j L) as [HjL|HjL].
    + rewrite (Z.min_l j L HjL). reflexivity.
    + rewrite (Z.min_r j L) by lia.
      rewrite !firstn_all2; [reflexivity| |];
        rewrite length_skipn; unfold L in *; lia.
  - rewrite (Z.min_r i L) by lia.
    rewrite (@skipn_all2 _ (Z.to_nat L) s) by (unfold L; lia).
    rewrite (@skipn_all2 _ (Z.to_nat i) s) by (unfold L in *; lia).
    rewrite !firstn_nil. reflexivity.
Qed.

(** The number of chunks, [len(range(0, len(s), n))]. *)
Lemma py_chunks_pos (s : pystr) (n : Z) : 0 < n ->
  py_chunks s n =
  Some (map (fun k => firstn (Z.to_nat n) (skipn (k * Z.to_nat n) s))
            (seq 0 (Z.to_nat ((Z.of_nat (length s) + n - 1) / n)))).
Proof.
  intros Hn. unfold py_chunks, py_range.
  destruct (Z.eqb_spec n 0) as [|_]; [lia|].
  destruct (Z.ltb_spec 0 n) as [_|]; [|lia].
  rewrite map_map. f_equal.
  replace (Z.of_nat (length s) - 0 + n - 1) with (Z.of_nat (length s) + n - 1) by lia.
  apply map_ext. intros k.
  rewrite py_slice_nonneg by nia.
  f_equal; [f_equal; lia|]. f_equal. rewrite Z.add_0_l, Z2Nat.inj_mul by lia.
  rewrite Nat2Z.id. reflexivity.
Qed.

Lemma chunks_concat (s : pystr) (N M : nat) :
  concat (map (fun k => firstn N (skipn (k * N) s)) (seq 0 M)) = firstn (M * N) s.
Proof.
  induction M as [|M IH]; [reflexivity|].
  rewrite seq_S, map_app, concat_app, IH. simpl.
  rewrite app_nil_r, <- firstn_add_skip. f_equal. lia.
Qed.

Lemma chunk_count_bounds (L n : Z) : 0 <= L -> 0 < n ->
  L <= (L + n - 1) / n * n /\ ((L + n - 1) / n - 1) * n < L \/ L = 0.
Proof.
  intros HL Hn.
  pose proof (Z.mod_pos_bound (L + n - 1) n Hn) as Hb.
  pose proof (Z.div_mod (L + n - 1) n ltac:(lia)) as Hd.
  destruct (Z.eq_dec L 0) as [->|HL0]; [right; reflexivity|left].
  set (q := (L + n - 1) / n) in *. set (r := (L + n - 1) mod n) in *.
  split; nia.
Qed.

(** [py_chunks] with a positive step cuts [s] into consecutive non-empty
    pieces of at most [n] characters. *)
Lemma py_chunks_spec (s : pystr) (n : Z) : 0 < n ->
  exists cs, py_chunks s n = Some cs /\ concat cs = s /\
    Forall (fun c => 1 <= Z.of_nat (length c) <= n) cs.
Proof.
  intros Hn. rewrite (py_chunks_pos s n Hn). eexists. split; [reflexivity|].
  set (L := Z.of_nat (length s)).
  assert (HL : 0 <= L) by (unfold L; lia).
  destruct (chunk_count_bounds L n HL Hn) as [[Hup Hlow]|HL0].
  - split.
    + rewrite chunks_concat. apply firstn_all2.
      rewrite <- (Nat2Z.id (length s)). fold L.
      rewrite <- Z2Nat.inj_mul by (try apply Z.div_pos; lia).
      apply Z2Nat.inj_le; [lia|nia|lia].
    + apply Stdlib.Lists.List.Forall_forall. intros c Hc.
      apply in_map_iff in Hc as [k [<- Hk]]. apply in_seq in Hk as [_ Hk].
      simpl in Hk.
      assert (HkL : (k * Z.to_nat n < length s)%nat).
      { assert (Z.of_nat k <= (L + n - 1) / n - 1) by lia.
        apply Nat2Z.inj_lt. rewrite Nat2Z.inj_mul, Z2Nat.id by lia. fold L. nia. }
      rewrite length_firstn, length_skipn. lia.
  - assert (Hs : s = []) by (destruct s; [reflexivity|discriminate]).
    subst s. rewrite HL0, (Z.div_small (0 + n - 1) n) by lia.
    split; [reflexivity|constructor].
Qed.

End Chunks.

Section ChunkFacts.

Lemma starts_with_app (p a b : pystr) :
  starts_with p a = true -> starts_with p (a ++ b)%list = true.
Proof.
  revert a. induction p as [|x p IH]; intros [|y a]; simpl; try discriminate; auto.
  intros H. apply andb_prop in H as [H1 H2]. rewrite H1, (IH a H2). reflexivity.
Qed.

Lemma starts_with_self (p x : pystr) : starts_with p (p ++ x)%list = true.
Proof. induction p as [|c p IH]; simpl; [reflexivity|]. rewrite Z.eqb_refl, IH. reflexivity. Qed.

Lemma before_newline_app (fence rest : pystr) :
  ~ In NEWLINE fence -> before_newline (fence ++ [NEWLINE] ++ rest)%list = fence.
Proof.
  induction fence as [|c f IH]; intros Hn; simpl in *.
  - reflexivity.
  - destruct (Z.eqb_spec c NEWLINE) as [->|_]; [tauto|]. rewrite IH by tauto. reflexivity.
Qed.

Lemma before_newline_notin (s : pystr) : ~ In NEWLINE s -> before_newline s = s.
Proof.
  induction s as [|c r IH]; simpl; intros Hn; [reflexivity|].
  destruct (Z.eqb_spec c NEWLINE) as [->|_]; [tauto|]. rewrite IH by tauto. reflexivity.
Qed.

Lemma slice_inner (fence body : pystr) :
  py_slice (fence ++ [NEWLINE] ++ body ++ fence3)%list (Z.of_nat (length fence) + 1) (-3)
  = body.
Proof.
  unfold py_slice, slice_index. cbv zeta.
  assert (Hl : Z.of_nat (length (fence ++ [NEWLINE] ++ body ++ fence3)%list) =
               Z.of_nat (length fence) + 1 + Z.of_nat (length body) + 3)
    by (rewrite !length_app; simpl; lia).
  rewrite Hl.
  destruct (Z.ltb_spec (Z.of_nat (length fence) + 1) 0) as [|_]; [lia|].
  destruct (Z.ltb_spec (-3) 0) as [_|]; [|lia].
  rewrite Z.min_l by lia. rewrite Z.max_r by lia.
  replace (Z.to_nat (Z.of_nat (length fence) + 1)) with (length fence + 1)%nat by lia.
  replace (Z.to_nat (-3 + (Z.of_nat (length fence) + 1 + Z.of_nat (length body) + 3) -
                     (Z.of_nat (length fence) + 1))) with (length body) by lia.
  rewrite skipn_app, (@skipn_all2 _ (length fence + 1) fence) by lia.
  replace (length fence + 1 - length fence)%nat with 1%nat by lia. simpl.
  change (skipn 0 (body ++ fence3)%list) with (body ++ fence3)%list.
  rewrite firstn_app, firstn_all, Nat.sub_diag. simpl. apply app_nil_r.
Qed.

Lemma py_chunks_empty_range (s : pystr) (n : Z) :
  n <> 0 -> (n < 0 \/ s = []) -> py_chunks s n = Some [].
Proof.
  intros Hn Hc. unfold py_chunks, py_range.
  destruct (Z.eqb_spec n 0) as [|_]; [lia|].
  destruct Hc as [Hneg| ->].
  - destruct (Z.ltb_spec 0 n) as [|_]; [lia|].
    replace (Z.to_nat ((0 - Z.of_nat (length s) - n - 1) / - n)) with 0%nat;
      [reflexivity|].
    symmetry.
    assert ((0 - Z.of_nat (length s) - n - 1) / - n < 1); [|lia].
    apply Z.div_lt_upper_bound; lia.
  - simpl length. destruct (Z.ltb_spec 0 n); rewrite Z.div_small by lia; reflexivity.
Qed.

End ChunkFacts.

(** chunk_embed_field on a value that is not fenced by ``` at both ends,
    with a positive max_length: the chunks are non-empty, at most
    max_length characters each, and concatenate back to the value. *)
Theorem chunk_embed_field_plain (value : pystr) (max_length : Z) :
  0 < max_length -> starts_with fence3 value && ends_with fence3 value = false ->
  exists chunks, chunk_embed_field value max_length = Some chunks /\
    concat chunks = value /\
    Forall (fun c => 1 <= Z.of_nat (length c) <= max_length) chunks.
Proof.
  intros Hm Hf. unfold chunk_embed_field. rewrite Hf. apply py_chunks_spec. exact Hm.
Qed.

Lemma chunk_embed_field_plain_witness :
  0 < 2 /\ starts_with fence3 [104; 105; 33] && ends_with fence3 [104; 105; 33] = false /\
  exists chunks, chunk_embed_field [104; 105; 33] 2 = Some chunks /\
    concat chunks = [104; 105; 33] /\
    Forall (fun c => 1 <= Z.of_nat (length c) <= 2) chunks.
Proof.
  split; [lia|split; [reflexivity|]].
  apply chunk_embed_field_plain; [lia|reflexivity].
Defined.

(** chunk_embed_field on a fenced value [fence "\n" body "```"], whose
    first line [fence] starts with ```: when max_length leaves room for the
    fence, the body is cut into non-empty consecutive pieces, each wrapped
    as [fence "\n" piece "```"], so every returned field is at most
    max_length characters long. *)
Theorem chunk_embed_field_fenced (fence body : pystr) (max_length : Z) :
  starts_with fence3 fence = true -> ~ In NEWLINE fence ->
  Z.of_nat (length fence) + 4 < max_length ->
  exists chunks,
    chunk_embed_field (fence ++ [NEWLINE] ++ body ++ fence3)%list max_length =
      Some (map (fun c => (fence ++ [NEWLINE] ++ c ++ fence3)%list) chunks) /\
    concat chunks = body /\
    Forall (fun c => 1 <= Z.of_nat (length c) <= max_length - Z.of_nat (length fence) - 4)
           chunks /\
    Forall (fun field => Z.of_nat (length field) <= max_length)
           (map (fun c => (fence ++ [NEWLINE] ++ c ++ fence3)%list) chunks).
Proof.
  intros Hs Hn Hm. unfold chunk_embed_field.
  rewrite (starts_with_app _ _ _ Hs).
  unfold ends_with.
  replace (rev (fence ++ [NEWLINE] ++ body ++ fence3)%list)
    with (rev fence3 ++ rev (fence ++ [NEWLINE] ++ body))%list
    by (rewrite <- rev_app_distr, <- !app_assoc; reflexivity).
  rewrite starts_with_self. simpl andb. cbv zeta.
  rewrite before_newline_app by exact Hn.
  rewrite slice_inner.
  destruct (py_chunks_spec body (max_length - Z.of_nat (length fence) - 4) ltac:(lia))
    as (cs & Hc & Hcat & Hf).
  rewrite Hc. exists cs. split; [reflexivity|split; [exact Hcat|split; [exact Hf|]]].
  apply Stdlib.Lists.List.Forall_forall. intros field Hin.
  apply in_map_iff in Hin as [c [<- Hc']].
  rewrite Stdlib.Lists.List.Forall_forall in Hf. specialize (Hf c Hc').
  rewrite !length_app. simpl. lia.
Qed.

Lemma chunk_embed_field_fenced_witness :
  starts_with fence3 [96; 96; 96; 97] = true /\ ~ In NEWLINE [96; 96; 96; 97] /\
  Z.of_nat (length [96; 96; 96; 97]) + 4 < 10 /\
  exists chunks,
    chunk_embed_field ([96; 96; 96; 97] ++ [NEWLINE] ++ [120; 121; 122] ++ fence3)%list 10 =
      Some (map (fun c => ([96; 96; 96; 97] ++ [NEWLINE] ++ c ++ fence3)%list) chunks) /\
    concat chunks = [120; 121; 122] /\
    Forall (fun c => 1 <= Z.of_nat (length c) <= 10 - Z.of_nat (length [96; 96; 96; 97]) - 4)
           chunks /\
    Forall (fun field => Z.of_nat (length field) <= 10)
           (map (fun c => ([96; 96; 96; 97] ++ [NEWLINE] ++ c ++ fence3)%list) chunks).
Proof.
  split; [reflexivity|split; [simpl; unfold NEWLINE; intuition discriminate|split; [simpl; lia|]]].
  apply chunk_embed_field_fenced; [reflexivity|simpl; unfold NEWLINE; intuition discriminate|simpl; lia].
Defined.

(** chunk_embed_field returns no field at all for a value fenced by ```
    at both ends when it has no newline (the fence is then the whole value
    and the inner part is empty), or when the first line is so long that
    the step max_length - len(fence) - 4 is negative: the text is dropped
    without an error. *)
Theorem chunk_embed_field_fenced_dropped (value : pystr) (max_length : Z) :
  starts_with fence3 value && ends_with fence3 value = true ->
  (~ In NEWLINE value /\ max_length <> Z.of_nat (length value) + 4 \/
   max_length < Z.of_nat (length (before_newline value)) + 4) ->
  chunk_embed_field value max_length = Some [].
Proof.
  intros Hf Hc. unfold chunk_embed_field. rewrite Hf. cbv zeta.
  destruct Hc as [[Hn Hm]|Hlt].
  - rewrite (before_newline_notin value Hn).
    replace (py_slice value (Z.of_nat (length value) + 1) (-3)) with (@nil Z).
    + rewrite py_chunks_empty_range by (try right; reflexivity || lia). reflexivity.
    + unfold py_slice, slice_index. cbv zeta.
      destruct (Z.ltb_spec (Z.of_nat (length value) + 1) 0) as [|_]; [lia|].
      destruct (Z.ltb_spec (-3) 0) as [_|]; [|lia].
      rewrite Z.min_r by lia.
      replace (Z.to_nat (Z.max 0 (-3 + Z.of_nat (length value)) - Z.of_nat (length value)))
        with 0%nat by lia. reflexivity.
  - rewrite py_chunks_empty_range by lia. reflexivity.
Qed.

Lemma chunk_embed_field_fenced_dropped_witness :
  starts_with fence3 [96; 96; 96; 97; 96; 96; 96] && ends_with fence3 [96; 96; 96; 97; 96; 96; 96]
    = true /\
  (~ In NEWLINE [96; 96; 96; 97; 96; 96; 96] /\
     1024 <> Z.of_nat (length [96; 96; 96; 97; 96; 96; 96]) + 4 \/
   1024 < Z.of_nat (length (before_newline [96; 96; 96; 97; 96; 96; 96])) + 4) /\
  chunk_embed_field [96; 96; 96; 97; 96; 96; 96] 1024 = Some [].
Proof.
  assert (H1 : starts_with fence3 [96; 96; 96; 97; 96; 96; 96] &&
               ends_with fence3 [96; 96; 96; 97; 96; 96; 96] = true) by reflexivity.
  assert (H2 : ~ In NEWLINE [96; 96; 96; 97; 96; 96; 96] /\
               1024 <> Z.of_nat (length [96; 96; 96; 97; 96; 96; 96]) + 4 \/
               1024 < Z.of_nat (length (before_newline [96; 96; 96; 97; 96; 96; 96])) + 4).
  { left. split; [simpl; unfold NEWLINE; intuition discriminate|simpl; lia]. }
  exact (conj H1 (conj H2 (chunk_embed_field_fenced_dropped _ _ H1 H2))).
Defined.

Section HistoryLoop.

Lemma history_loop_spec (msg : pystr) (lines : list pystr) (footer : pystr) :
  Z.of_nat (length msg) + Z.of_nat (length footer) <= 1024 ->
  exists k,
    history_loop msg lines footer = (msg ++ concat (firstn k lines))%list /\
    Z.of_nat (length (history_loop msg lines footer)) + Z.of_nat (length footer) <= 1024 /\
    (forall line, nth_error lines k = Some line ->
       1024 < Z.of_nat (length (history_loop msg lines footer)) + Z.of_nat (length line)
              + Z.of_nat (length footer)).
Proof.
  revert msg. induction lines as [|line rest IH]; intros msg Hm; simpl.
  - exists 0%nat. simpl. rewrite app_nil_r. split; [reflexivity|split; [exact Hm|]].
    intros l Hl. discriminate Hl.
  - destruct (Z.ltb_spec 1024 (Z.of_nat (length msg) + Z.of_nat (length line)
                                 + Z.of_nat (length footer))) as [Hlt|Hge].
    + exists 0%nat. simpl. rewrite app_nil_r. split; [reflexivity|split; [exact Hm|]].
      intros l Hl. injection Hl as <-. exact Hlt.
    + destruct (IH (msg ++ line)%list) as (k & Hk & Hlen & Hstop);
        [rewrite length_app; lia|].
      exists (S k). simpl. rewrite Hk, app_assoc.
      split; [reflexivity|split; [rewrite <- Hk; exact Hlen|]].
      intros l Hl. rewrite <- Hk. exact (Hstop l Hl).
Qed.

End HistoryLoop.

(** The history field built by format_status_embeds: when header and
    footer together fit in 1024 characters, the message never exceeds
    1024 characters; it is the header, a prefix of the history lines and
    the footer, and the prefix stops at the first line that would not fit
    (later, shorter lines are not tried). *)
Theorem history_message_fits (header : pystr) (lines : list pystr) (footer : pystr) :
  Z.of_nat (length header) + Z.of_nat (length footer) <= 1024 ->
  Z.of_nat (length (history_message header lines footer)) <= 1024 /\
  exists k,
    history_message header lines footer = (header ++ concat (firstn k lines) ++ footer)%list /\
    (forall line, nth_error lines k = Some line ->
       1024 < Z.of_nat (length (header ++ concat (firstn k lines))%list)
              + Z.of_nat (length line) + Z.of_nat (length footer)).
Proof.
  intros Hhf. unfold history_message.
  destruct (history_loop_spec header lines footer Hhf) as (k & Hk & Hlen & Hstop).
  split; [rewrite length_app; lia|].
  exists k. rewrite Hk, <- app_assoc. split; [reflexivity|]. rewrite <- Hk. exact Hstop.
Qed.

Lemma history_message_fits_witness :
  Z.of_nat (length [35]) + Z.of_nat (length [96]) <= 1024 /\
  Z.of_nat (length (history_message [35] [[1; 2]; repeat 0 2000; [3]] [96])) <= 1024 /\
  exists k,
    history_message [35] [[1; 2]; repeat 0 2000; [3]] [96] =
      ([35] ++ concat (firstn k [[1; 2]; repeat 0 2000; [3]]) ++ [96])%list /\
    (forall line, nth_error [[1; 2]; repeat 0 2000; [3]] k = Some line ->
       1024 < Z.of_nat (length ([35] ++ concat (firstn k [[1; 2]; repeat 0 2000; [3]]))%list)
              + Z.of_nat (length line) + Z.of_nat (length [96])).
Proof.
  assert (H : Z.of_nat (length [35]) + Z.of_nat (length [96]) <= 1024) by (simpl; lia).
  exact (conj H (history_message_fits _ _ _ H)).
Defined.

(** The countdown shown in the footer: for a positive update interval the
    remaining time minutes_left * 60 + seconds_left is between 1 second and
    the interval, seconds_left is below 60, and [now] plus that time is a
    multiple of the interval, i.e. the next scheduled tick. *)
Theorem next_update_countdown (update_interval now : Z) :
  0 < update_interval ->
  exists minutes_left seconds_left,
    next_update update_interval now = Some (minutes_left, seconds_left) /\
    0 <= seconds_left < 60 /\
    1 <= 60 * minutes_left + seconds_left <= update_interval /\
    (now + (60 * minutes_left + seconds_left)) mod update_interval = 0.
Proof.
  intros Hi. unfold next_update.
  destruct (Z.eqb_spec update_interval 0) as [|_]; [lia|].
  pose proof (Z.mod_pos_bound now update_interval Hi) as Hb.
  pose proof (Z.div_mod now update_interval ltac:(lia)) as Hd.
  set (t := update_interval - now mod update_interval).
  destruct (Z.leb_spec t 0) as [|_]; [unfold t in *; lia|].
  exists (t / 60), (t mod 60). split; [reflexivity|].
  pose proof (Z.mod_pos_bound t 60 ltac:(lia)).
  rewrite <- (Z.div_mod t 60) by lia.
  split; [lia|split; [unfold t; lia|]].
  replace (now + t) with ((now / update_interval + 1) * update_interval) by (unfold t; lia).
  apply Z.mod_mul. lia.
Qed.

Lemma next_update_countdown_witness :
  0 < 30 /\
  exists minutes_left seconds_left,
    next_update 30 1000 = Some (minutes_left, seconds_left) /\
    0 <= seconds_left < 60 /\
    1 <= 60 * minutes_left + seconds_left <= 30 /\
    (1000 + (60 * minutes_left + seconds_left)) mod 30 = 0.
Proof.
  split; [lia|]. apply next_update_countdown. lia.
Defined.

Section TimeAgo.

Lemma digit_char_nonspace (d : Z) : 0 <= d <= 9 -> PyStr.is_space (Fmt.digit_char d) = false.
Proof.
  intros Hd.
  assert (d = 0 \/ d = 1 \/ d = 2 \/ d = 3 \/ d = 4 \/ d = 5 \/ d = 6 \/ d = 7 \/ d = 8 \/ d = 9)
    as Hc by lia.
  repeat destruct Hc as [->|Hc]; try reflexivity. subst d. reflexivity.
Qed.

Lemma digits_rev_range (fuel : nat) (n : Z) :
  0 <= n < 10 ^ (Z.of_nat fuel + 1) ->
  Forall (fun d => 0 <= d <= 9) (Fmt.digits_rev fuel n).
Proof.
  revert n. induction fuel as [|f IH]; intros n Hn; simpl.
  - constructor; [simpl in Hn; lia|constructor].
  - destruct (Z.ltb_spec n 10).
    + constructor; [lia|constructor].
    + constructor; [pose proof (Z.mod_pos_bound n 10); lia|].
      apply IH. split; [apply Z.div_pos; lia|].
      apply Z.div_lt_upper_bound; [lia|].
      replace (Z.of_nat (S f) + 1) with (Z.of_nat f + 1 + 1) in Hn by lia.
      rewrite Z.pow_add_r in Hn by lia. lia.
Qed.

Lemma fold_prepend_head (l : list Z) (acc : string) :
  Forall (fun d => 0 <= d <= 9) l -> head_nonspace acc ->
  head_nonspace (fold_left (fun acc d => String (Fmt.digit_char d) acc) l acc).
Proof.
  revert acc. induction l as [|d r IH]; intros acc Hl Ha; simpl; [exact Ha|].
  inversion Hl as [|? ? Hd Hr]; subst.
  apply IH; [exact Hr|]. exists (Fmt.digit_char d), acc.
  split; [reflexivity|apply digit_char_nonspace; exact Hd].
Qed.

Lemma str_int_pos_head (n : Z) : 0 < n -> head_nonspace (str_int n).
Proof.
  intros Hn. unfold str_int. destruct (Z.ltb_spec n 0) as [|_]; [lia|].
  unfold str_nonneg.
  assert (Hr : Forall (fun d => 0 <= d <= 9) (Fmt.digits_rev (S (Z.to_nat (Z.log2 n))) n)).
  { apply digits_rev_range. split; [lia|].
    pose proof (Z.log2_spec n Hn) as [_ Hs].
    assert (H2 : 2 ^ Z.succ (Z.log2 n) <= 10 ^ Z.succ (Z.log2 n))
      by (apply Z.pow_le_mono_l; split; [lia|lia]).
    assert (H3 : 10 ^ Z.succ (Z.log2 n) <= 10 ^ (Z.of_nat (S (Z.to_nat (Z.log2 n))) + 1)).
    { apply Z.pow_le_mono_r; [lia|]. pose proof (Z.log2_nonneg n). lia. }
    lia. }
  destruct (Fmt.digits_rev (S (Z.to_nat (Z.log2 n))) n) as [|d r] eqn:E.
  - simpl in E. destruct (n <? 10); discriminate.
  - inversion Hr as [|? ? Hd Hr']; subst. simpl.
    apply fold_prepend_head; [exact Hr'|].
    exists (Fmt.digit_char d), EmptyString. split; [reflexivity|].
    apply digit_char_nonspace. exact Hd.
Qed.

Lemma head_nonspace_app (s t : string) : head_nonspace s -> head_nonspace (s ++ t).
Proof. intros (c & r & -> & Hc). exists c, (r ++ t). split; [reflexivity|exact Hc]. Qed.

Lemma strip_head_nonempty (s : string) : head_nonspace s -> PyStr.strip s <> "".
Proof.
  intros (c & t & -> & Hc). unfold PyStr.strip. simpl. rewrite Hc.
  simpl. destruct (PyStr.rstrip t); [rewrite Hc|]; discriminate.
Qed.

End TimeAgo.

(** format_time_ago gives the empty string exactly for the minute counts
    that are not positive and a multiple of a day (1440 minutes): every
    positive count shows at least one of days, hours or minutes. *)
Theorem format_time_ago_empty (minutes : Z) :
  format_time_ago minutes = "" <-> minutes <= 0 /\ minutes mod 1440 = 0.
Proof.
  pose proof (Z.mod_pos_bound minutes 1440 ltac:(lia)) as Hb.
  pose proof (Z.div_mod minutes 1440 ltac:(lia)) as Hd.
  set (rem := minutes mod 1440) in *.
  pose proof (Z.mod_pos_bound rem 60 ltac:(lia)) as Hb2.
  pose proof (Z.div_mod rem 60 ltac:(lia)) as Hd2.
  unfold format_time_ago. fold rem. split.
  - intros Hs.
    destruct (Z.ltb_spec 0 (minutes / 1440)) as [Hday|Hday].
    + exfalso. revert Hs. apply strip_head_nonempty.
      destruct (0 <? rem / 60); destruct (0 <? rem mod 60);
        repeat apply head_nonspace_app; apply str_int_pos_head; exact Hday.
    + destruct (Z.ltb_spec 0 (rem / 60)) as [Hh|Hh].
      * exfalso. revert Hs. apply strip_head_nonempty.
        destruct (0 <? rem mod 60); simpl;
          repeat apply head_nonspace_app; apply str_int_pos_head; exact Hh.
      * destruct (Z.ltb_spec 0 (rem mod 60)) as [Hm|Hm].
        -- exfalso. revert Hs. apply strip_head_nonempty.
           simpl. apply head_nonspace_app. apply str_int_pos_head. exact Hm.
        -- lia.
  - intros [Hle Hr]. rewrite Hr.
    destruct (Z.ltb_spec 0 (minutes / 1440)) as [|_]; [lia|]. reflexivity.
Qed.

(** A negative minute count (a record time in the future) is shown as the
    time of day it falls on: format_time_ago drops the negative day count
    and formats minutes mod 1440. *)
Theorem format_time_ago_negative (minutes : Z) :
  minutes < 0 -> format_time_ago minutes = format_time_ago (minutes mod 1440).
Proof.
  intros Hneg.
  pose proof (Z.mod_pos_bound minutes 1440 ltac:(lia)) as Hb.
  pose proof (Z.div_mod minutes 1440 ltac:(lia)) as Hd.
  unfold format_time_ago. rewrite Z.mod_mod by lia.
  rewrite (Z.div_small (minutes mod 1440) 1440) by lia.
  destruct (Z.ltb_spec 0 (minutes / 1440)) as [|_]; [lia|]. reflexivity.
Qed.

Lemma format_time_ago_negative_witness :
  -1 < 0 /\ format_time_ago (-1) = format_time_ago ((-1) mod 1440).
Proof. split; [lia|]. apply format_time_ago_negative. lia. Defined.

(* ===================================================================== *)
(** * Properties of the threshold lights                                   *)
(* ===================================================================== *)

Section Lights.

Lemma py_lt_spec (x y : Q) : py_lt x y = true <-> (x < y)%Q.
Proof.
  unfold py_lt. rewrite negb_true_iff. split.
  - intros H. apply Qnot_le_lt. intros Hle. apply Qle_bool_iff in Hle. congruence.
  - intros H. destruct (Qle_bool y x) eqn:E; [|reflexivity].
    apply Qle_bool_iff in E. exfalso. apply (Qlt_not_le x y H E).
Qed.

Lemma py_le_spec (x y : Q) : py_le x y = true <-> (x <= y)%Q.
Proof. apply Qle_bool_iff. Qed.

Lemma py_lt_false (x y : Q) : py_lt x y = false -> (y <= x)%Q.
Proof.
  intros H. destruct (Qlt_le_dec x y) as [Hl|Hl]; [|exact Hl].
  apply py_lt_spec in Hl. congruence.
Qed.

Lemma py_le_false (x y : Q) : py_le x y = false -> (y < x)%Q.
Proof.
  intros H. destruct (Qlt_le_dec y x) as [Hl|Hl]; [exact Hl|].
  apply py_le_spec in Hl. congruence.
Qed.

End Lights.

Ltac light_cases :=
  repeat match goal with
  | |- context [py_lt ?x ?y] =>
      let E := fresh "E" in
      destruct (py_lt x y) eqn:E;
      [apply py_lt_spec in E|apply py_lt_false in E]
  | |- context [py_le ?x ?y] =>
      let E := fresh "E" in
      destruct (py_le x y) eqn:E;
      [apply py_le_spec in E|apply py_le_false in E]
  end.

(** get_temp_emoji with at least two ascending thresholds and the three
    lights green, yellow, red (read here as the levels 0, 1, 2) always
    returns a light, and a higher value never gets a lower light. *)
Theorem get_temp_emoji_monotone (v w t0 t1 : Q) (rest : list Q) :
  (t0 <= t1)%Q -> (v <= w)%Q ->
  exists i j,
    get_temp_emoji v (t0 :: t1 :: rest) [0; 1; 2]%nat = Some i /\
    get_temp_emoji w (t0 :: t1 :: rest) [0; 1; 2]%nat = Some j /\ (i <= j)%nat.
Proof.
  intros Ht Hvw. unfold get_temp_emoji. cbn [nth_error]. light_cases;
    do 2 eexists; (split; [reflexivity|split; [reflexivity|]]);
    first [lia | exfalso; lra].
Qed.

Lemma get_temp_emoji_monotone_witness :
  (60 <= 65)%Q /\ (55 <= 70)%Q /\
  exists i j,
    get_temp_emoji 55 [60; 65; 70]%Q [0; 1; 2]%nat = Some i /\
    get_temp_emoji 70 [60; 65; 70]%Q [0; 1; 2]%nat = Some j /\ (i <= j)%nat.
Proof.
  assert (H1 : (60 <= 65)%Q) by lra. assert (H2 : (55 <= 70)%Q) by lra.
  exact (conj H1 (conj H2 (get_temp_emoji_monotone 55 70 60 65 [70%Q] H1 H2))).
Defined.

(** get_fan_emoji with at least two ascending thresholds and the lights
    [green; yellow; red] (levels 0, 1, 2) always returns a light, and a
    higher fan speed never gets a higher (worse) level: red up to the first
    threshold, yellow up to the second, green above. *)
Theorem get_fan_emoji_antitone (v w t0 t1 : Q) (rest : list Q) :
  (t0 <= t1)%Q -> (v <= w)%Q ->
  exists i j,
    get_fan_emoji v (t0 :: t1 :: rest) [0; 1; 2]%nat = Some i /\
    get_fan_emoji w (t0 :: t1 :: rest) [0; 1; 2]%nat = Some j /\ (j <= i)%nat.
Proof.
  intros Ht Hvw. unfold get_fan_emoji. cbn [nth_error]. light_cases;
    do 2 eexists; (split; [reflexivity|split; [reflexivity|]]);
    first [lia | exfalso; lra].
Qed.

Lemma get_fan_emoji_antitone_witness :
  (0 <= 2000)%Q /\ (1500 <= 4000)%Q /\
  exists i j,
    get_fan_emoji 1500 [0; 2000; 3500; 7500]%Q [0; 1; 2]%nat = Some i /\
    get_fan_emoji 4000 [0; 2000; 3500; 7500]%Q [0; 1; 2]%nat = Some j /\ (j <= i)%nat.
Proof.
  assert (H1 : (0 <= 2000)%Q) by lra. assert (H2 : (1500 <= 4000)%Q) by lra.
  exact (conj H1 (conj H2 (get_fan_emoji_antitone 1500 4000 0 2000 [3500; 7500]%Q H1 H2))).
Defined.

(** get_volt_emoji ignores the first threshold: the light depends only on
    thresholds[1] and thresholds[2].  With three thresholds, the second not
    above the third, and the lights [green; yellow; red] (levels 0, 1, 2),
    it always returns a light and a higher value never gets a lower one. *)
Theorem get_volt_emoji_monotone (v w t0 t0' t1 t2 : Q) (rest : list Q) :
  (t1 <= t2)%Q -> (v <= w)%Q ->
  (forall (A : Type) (x : Q) (emojis : list A),
     get_volt_emoji x (t0 :: t1 :: t2 :: rest) emojis =
     get_volt_emoji x (t0' :: t1 :: t2 :: rest) emojis) /\
  exists i j,
    get_volt_emoji v (t0 :: t1 :: t2 :: rest) [0; 1; 2]%nat = Some i /\
    get_volt_emoji w (t0 :: t1 :: t2 :: rest) [0; 1; 2]%nat = Some j /\ (i <= j)%nat.
Proof.
  intros Ht Hvw. split; [reflexivity|].
  unfold get_volt_emoji. cbn [nth_error]. light_cases;
    do 2 eexists; (split; [reflexivity|split; [reflexivity|]]);
    first [lia | exfalso; lra].
Qed.

Lemma get_volt_emoji_monotone_witness :
  (1.2 <= 1.4)%Q /\ (1.1 <= 5)%Q /\
  ((forall (A : Type) (x : Q) (emojis : list A),
     get_volt_emoji x [1.0; 1.2; 1.4]%Q emojis = get_volt_emoji x [0; 1.2; 1.4]%Q emojis) /\
   exists i j,
     get_volt_emoji 1.1 [1.0; 1.2; 1.4]%Q [0; 1; 2]%nat = Some i /\
     get_volt_emoji 5 [1.0; 1.2; 1.4]%Q [0; 1; 2]%nat = Some j /\ (i <= j)%nat).
Proof.
  assert (H1 : (1.2 <= 1.4)%Q) by lra. assert (H2 : (1.1 <= 5)%Q) by lra.
  exact (conj H1 (conj H2 (get_volt_emoji_monotone 1.1 5 1.0 0 1.2 1.4 [] H1 H2))).
Defined.

(* ===================================================================== *)
(** * The best-difficulty suffix: display versus save                     *)
(* ===================================================================== *)

Section Suffix.

Lemma last_char_upper (s : string) :
  PyStr.last_char (PyStr.upper s) = option_map PyStr.upper_char (PyStr.last_char s).
Proof.
  induction s as [|a r IH]; [reflexivity|].
  destruct r as [|b r']; [reflexivity|].
  exact IH.
Qed.

Lemma rstrip_last_nonspace (s : string) (c : ascii) :
  PyStr.last_char s = Some c -> PyStr.is_space c = false -> PyStr.rstrip s = s.
Proof.
  induction s as [|a r IH]; intros Hl Hc; [discriminate Hl|].
  destruct r as [|b r'].
  - simpl in Hl. injection Hl as ->. simpl. rewrite Hc. reflexivity.
  - assert (Hr : PyStr.last_char (String b r') = Some c) by exact Hl.
    remember (String b r') as r eqn:Er. simpl.
    rewrite (IH Hr Hc). subst r. reflexivity.
Qed.

Lemma lstrip_last_nonspace (s : string) (c : ascii) :
  PyStr.last_char s = Some c -> PyStr.is_space c = false ->
  PyStr.last_char (PyStr.lstrip s) = Some c.
Proof.
  induction s as [|a r IH]; intros Hl Hc; [discriminate Hl|].
  simpl. destruct (PyStr.is_space a) eqn:Ea; [|exact Hl].
  destruct r as [|b r'].
  - simpl in Hl. injection Hl as ->. congruence.
  - exact (IH Hl Hc).
Qed.

Lemma strip_last_nonspace (s : string) (c : ascii) :
  PyStr.last_char s = Some c -> PyStr.is_space c = false ->
  PyStr.last_char (PyStr.strip s) = Some c.
Proof.
  intros Hl Hc. unfold PyStr.strip.
  pose proof (lstrip_last_nonspace s c Hl Hc) as H.
  rewrite (rstrip_last_nonspace _ c H Hc). exact H.
Qed.

End Suffix.

(** When [str(best_diff)] does not end in whitespace, save_best_diff stores
    the suffix that get_best_diff_suffix would show, except that a value
    with no G/M/K suffix (get_best_diff_suffix gives "") is stored with the
    default "G". *)
Theorem save_suffix_vs_display (s : string) (c : ascii) :
  PyStr.last_char s = Some c -> PyStr.is_space c = false ->
  save_suffix s =
    (if String.eqb (get_best_diff_suffix s) "" then "G" else get_best_diff_suffix s).
Proof.
  intros Hl Hc. unfold save_suffix, get_best_diff_suffix.
  rewrite !last_char_upper, (strip_last_nonspace s c Hl Hc), Hl. simpl option_map.
  generalize (PyStr.upper_char c) as u. intros u.
  destruct (Ascii.eqb u "G"%char), (Ascii.eqb u "M"%char), (Ascii.eqb u "K"%char);
    reflexivity.
Qed.

Lemma save_suffix_vs_display_witness :
  PyStr.last_char "1234" = Some "4"%char /\ PyStr.is_space "4"%char = false /\
  save_suffix "1234" =
    (if String.eqb (get_best_diff_suffix "1234") "" then "G" else get_best_diff_suffix "1234").
Proof.
  refine (conj eq_refl (conj eq_refl _)).
  exact (save_suffix_vs_display "1234" "4"%char eq_refl eq_refl).
Defined.

(* ===================================================================== *)
(** * Thousands separators                                                *)
(* ===================================================================== *)

Section Thousands.

Lemma digits_fuel_range (n : Z) :
  0 <= n -> Forall (fun d => 0 <= d <= 9) (Fmt.digits_rev (S (Z.to_nat (Z.log2 n))) n).
Proof.
  intros Hn. apply digits_rev_range. split; [lia|].
  destruct (Z.eq_dec n 0) as [->|Hn0]; [simpl; lia|].
  pose proof (Z.log2_spec n ltac:(lia)) as [_ Hs].
  assert (H2 : 2 ^ Z.succ (Z.log2 n) <= 10 ^ Z.succ (Z.log2 n))
    by (apply Z.pow_le_mono_l; split; [lia|lia]).
  assert (H3 : 10 ^ Z.succ (Z.log2 n) <= 10 ^ (Z.of_nat (S (Z.to_nat (Z.log2 n))) + 1)).
  { apply Z.pow_le_mono_r; [lia|]. pose proof (Z.log2_nonneg n). lia. }
  lia.
Qed.

Lemma digit_char_not_comma (d : Z) :
  0 <= d <= 9 -> Ascii.eqb (Fmt.digit_char d) ","%char = false.
Proof.
  intros Hd.
  assert (d = 0 \/ d = 1 \/ d = 2 \/ d = 3 \/ d = 4 \/ d = 5 \/ d = 6 \/ d = 7 \/ d = 8 \/ d = 9)
    as Hc by lia.
  repeat destruct Hc as [->|Hc]; try reflexivity. subst d. reflexivity.
Qed.

Lemma replace_group3 (ds : list Z) (k : nat) (acc : string) :
  Forall (fun d => 0 <= d <= 9) ds ->
  PyStr.replace_char ","%char "" (Fmt.group3 ds k acc) =
  fold_left (fun acc d => String (Fmt.digit_char d) acc) ds
            (PyStr.replace_char ","%char "" acc).
Proof.
  revert k acc. induction ds as [|d r IH]; intros k acc Hds; [reflexivity|].
  inversion Hds as [|? ? Hd Hr]; subst. simpl.
  destruct (Nat.eqb k 3); rewrite IH by exact Hr; simpl;
    rewrite (digit_char_not_comma d Hd); reflexivity.
Qed.

Lemma replace_commas_nonneg (n : Z) :
  0 <= n -> PyStr.replace_char ","%char "" (Fmt.commas_nonneg n) = str_nonneg n.
Proof.
  intros Hn. unfold Fmt.commas_nonneg, str_nonneg.
  rewrite replace_group3 by (apply digits_fuel_range; exact Hn). reflexivity.
Qed.

End Thousands.

(** Removing the commas from [f"{n:,}"] gives back [str(n)]: the thousands
    separator only inserts commas between the digits, for negative numbers
    too. *)
Theorem format_thousands_strip_commas (n : Z) :
  PyStr.replace_char ","%char "" (Fmt.format_thousands n) = str_int n.
Proof.
  unfold Fmt.format_thousands, str_int.
  destruct (Z.ltb_spec n 0).
  - simpl. f_equal. apply replace_commas_nonneg. lia.
  - apply replace_commas_nonneg. lia.
Qed.

(* ===================================================================== *)
(** * build_summary                                                        *)
(* ===================================================================== *)

Section Summary.

Lemma online_skip (d1 d2 : list (string * dict)) (h : string) (s : dict) :
  is_online s = false ->
  List.filter is_online (map snd (d1 ++ (h, s) :: d2)) = List.filter is_online (map snd (d1 ++ d2)).
Proof.
  intros Hs. rewrite !map_app, !List.filter_app. cbn [map List.filter snd]. rewrite Hs. reflexivity.
Qed.

Lemma length_insert_pair (d1 d2 : list (string * dict)) (p : string * dict) :
  length (map snd (d1 ++ p :: d2)) = S (length (map snd (d1 ++ d2))).
Proof. rewrite !length_map, !length_app. simpl. lia. Qed.

Lemma py_sum_fold_none (xs : list json) :
  fold_left (fun acc v =>
               match acc, json_num v with
               | Some a, Some x => Some (a + x)%Q
               | _, _ => None
               end) xs None = None.
Proof. induction xs as [|x r IH]; [reflexivity|exact IH]. Qed.

Lemma py_sum_type_error (xs : list json) (v : json) :
  In v xs -> json_num v = None -> py_sum xs = None.
Proof.
  unfold py_sum. generalize (Some 0%Q) as acc.
  induction xs as [|x r IH]; intros acc Hin Hv; [destruct Hin|].
  destruct Hin as [->|Hin]; simpl.
  - rewrite Hv. destruct acc; apply py_sum_fold_none.
  - apply IH; assumption.
Qed.

End Summary.

(** A device whose status has an "error" key counts towards the total and
    the offline devices only: adding one to the data, anywhere in it, adds 1
    to total_devices and offline_devices and leaves the online count, both
    sums, the efficiency and a TypeError unchanged. *)
Theorem build_summary_offline_device (d1 d2 : list (string * dict)) (h : string) (s : dict) :
  has_key "error" s = true ->
  build_summary (d1 ++ (h, s) :: d2) =
    match build_summary (d1 ++ d2) with
    | Some (t, on, off, hr, p, e) => Some (t + 1, on, off + 1, hr, p, e)
    | None => None
    end.
Proof.
  intros Hs.
  assert (Ho : is_online s = false) by (unfold is_online; rewrite Hs; reflexivity).
  unfold build_summary. cbv zeta.
  rewrite (online_skip d1 d2 h s Ho), (length_insert_pair d1 d2 (h, s)).
  destruct (py_sum _) as [hr|]; [|reflexivity].
  destruct (py_sum _) as [p|]; [|reflexivity].
  repeat f_equal; lia.
Qed.

Lemma build_summary_offline_device_witness :
  has_key "error" [("error", JStr "timeout")] = true /\
  build_summary ([("a", [("hashRate", JInt 500); ("power", JInt 10)])] ++
                 ("b", [("error", JStr "timeout")]) :: []) =
    match build_summary ([("a", [("hashRate", JInt 500); ("power", JInt 10)])] ++ []) with
    | Some (t, on, off, hr, p, e) => Some (t + 1, on, off + 1, hr, p, e)
    | None => None
    end.
Proof.
  split; [reflexivity|].
  apply (build_summary_offline_device _ [] "b" [("error", JStr "timeout")]).
  reflexivity.
Defined.

(** When no device is online (every status has an "error" key, or there are
    no devices) build_summary returns (n, 0, n, 0, 0, 0) for n devices. *)
Theorem build_summary_all_offline (data : list (string * dict)) :
  Forall (fun e => has_key "error" (snd e) = true) data ->
  build_summary data =
    Some (Z.of_nat (length data), 0, Z.of_nat (length data), 0%Q, 0%Q, 0%Q).
Proof.
  intros Hall.
  assert (Hf : List.filter is_online (map snd data) = []).
  { induction data as [|e r IH]; [reflexivity|].
    inversion Hall as [|? ? He Hr]; subst. simpl.
    unfold is_online at 1. rewrite He. exact (IH Hr). }
  unfold build_summary. cbv zeta. rewrite Hf, length_map. simpl.
  repeat f_equal; lia.
Qed.

Lemma build_summary_all_offline_witness :
  Forall (fun e => has_key "error" (snd e) = true)
    [("a", [("error", JStr "timeout")]); ("b", [("error", JStr "refused")])] /\
  build_summary [("a", [("error", JStr "timeout")]); ("b", [("error", JStr "refused")])] =
    Some (2, 0, 2, 0%Q, 0%Q, 0%Q).
Proof.
  assert (H : Forall (fun e => has_key "error" (snd e) = true)
    [("a", [("error", JStr "timeout")]); ("b", [("error", JStr "refused")])])
    by (repeat constructor).
  split; [exact H|].
  exact (build_summary_all_offline _ H).
Defined.

(** An online device (no "error" key) whose hashRate is not a number (a
    string, null, list or object) makes the summation raise TypeError:
    build_summary gives no summary. *)
Theorem build_summary_hashrate_type_error (data : list (string * dict)) (h : string)
    (s : dict) (v : json) :
  In (h, s) data -> has_key "error" s = false ->
  dict_lookup "hashRate" s = Some v -> json_num v = None ->
  build_summary data = None.
Proof.
  intros Hin He Hv Hn. unfold build_summary. cbv zeta.
  rewrite (py_sum_type_error _ v); [reflexivity| |exact Hn].
  apply in_map_iff. exists s. split; [unfold dict_get; rewrite Hv; reflexivity|].
  apply List.filter_In. split; [apply in_map_iff; exists (h, s); split; [reflexivity|exact Hin]|].
  unfold is_online. rewrite He. reflexivity.
Qed.

Lemma build_summary_hashrate_type_error_witness :
  In ("a", [("hashRate", JStr "500 GH/s")])
     [("a", [("hashRate", JStr "500 GH/s")]); ("b", [("hashRate", JInt 400)])] /\
  has_key "error" [("hashRate", JStr "500 GH/s")] = false /\
  dict_lookup "hashRate" [("hashRate", JStr "500 GH/s")] = Some (JStr "500 GH/s") /\
  json_num (JStr "500 GH/s") = None /\
  build_summary [("a", [("hashRate", JStr "500 GH/s")]); ("b", [("hashRate", JInt 400)])]
    = None.
Proof.
  assert (Hin : In ("a", [("hashRate", JStr "500 GH/s")])
     [("a", [("hashRate", JStr "500 GH/s")]); ("b", [("hashRate", JInt 400)])])
    by (left; reflexivity).
  refine (conj Hin (conj eq_refl (conj eq_refl (conj eq_refl _)))).
  exact (build_summary_hashrate_type_error _ "a" _ (JStr "500 GH/s") Hin
           eq_refl eq_refl eq_refl).
Defined.
